(** * voice_assistant: a shallow embedding of the pipeline and its properties

    The program records audio, transcribes it with whisper.cpp, sends the
    transcript to an ollama server and speaks the reply.  Every stage is a
    wrapper around an external process, the file system or an HTTP endpoint.
    The embedding keeps the control flow of the Python sources and replaces
    the outside world by an oracle ([env]) whose answers are arbitrary:
    theorems quantify over every oracle, examples fix one.

    Layout:
    - [PyStr], [PyPath]: the string and path primitives of Python the
      sources call ([str.strip], [str.split], [str.replace], [Path.suffix]);
    - values, exceptions, events, the world and the monad [M];
    - one section per source file, definitions named after the functions
      they embed;
    - the properties. *)

From stdpp Require Import gmap strings list pretty.
From Stdlib Require Import ZArith Ascii String.

Open Scope string_scope.
Open Scope Z_scope.

(** ** Python strings

    A [str] is modelled by [string]; a character stands for the code point
    of the same number, so the model covers the code points below 256.
    The bytes of a file are a [string] as well; what a codec makes of a
    text or of bytes, and whether it refuses them, is asked of the
    environment ([utf8] and [decode] below). *)

Module PyStr.

(** [str.isspace] on one character: the code points below 256 that Python
    treats as whitespace are 9-13, 28-32, 133 and 160. *)
Definition is_space (a : ascii) : bool :=
  let n := nat_of_ascii a in
  ((9 <=? n) && (n <=? 13) || (28 <=? n) && (n <=? 32)
   || (n =? 133) || (n =? 160))%nat.

Fixpoint all_space (s : string) : bool :=
  match s with
  | EmptyString => true
  | String a s' => is_space a && all_space s'
  end.

Fixpoint lstrip (s : string) : string :=
  match s with
  | EmptyString => EmptyString
  | String a s' => if is_space a then lstrip s' else s
  end.

Fixpoint rstrip (s : string) : string :=
  match s with
  | EmptyString => EmptyString
  | String a s' =>
      match rstrip s' with
      | EmptyString => if is_space a then EmptyString else String a EmptyString
      | r => String a r
      end
  end.

(** [s.strip()] *)
Definition strip (s : string) : string := rstrip (lstrip s).

(** Truth value of a [str]: non-empty. *)
Definition truthy (s : string) : bool :=
  match s with EmptyString => false | _ => true end.

(** [s.split()]: the maximal runs of non-whitespace, in order.  [tok] is
    the run being read. *)
Fixpoint split_go (tok s : string) : list string :=
  match s with
  | EmptyString => if truthy tok then [tok] else []
  | String a s' =>
      if is_space a
      then (if truthy tok then tok :: split_go EmptyString s'
            else split_go EmptyString s')
      else split_go (tok +:+ String a EmptyString) s'
  end.

Definition split (s : string) : list string := split_go EmptyString s.

(** [s.replace(old, new)] for a non-empty [old]: scan from the left, and
    after a match skip the rest of the matched text ([skip] characters). *)
Fixpoint replace_go (old new : string) (skip : nat) (s : string) : string :=
  match s with
  | EmptyString => EmptyString
  | String a s' =>
      match skip with
      | S k => replace_go old new k s'
      | O =>
          if String.prefix old s
          then new +:+ replace_go old new (Nat.pred (String.length old)) s'
          else String a (replace_go old new O s')
      end
  end.

(** With an empty [old], Python inserts [new] before every character and
    at the end. *)
Fixpoint intersperse (new s : string) : string :=
  match s with
  | EmptyString => new
  | String a s' => new +:+ String a (intersperse new s')
  end.

Definition replace (s old new : string) : string :=
  match old with
  | EmptyString => intersperse new s
  | _ => replace_go old new O s
  end.

(** [s.rfind(c)] for one character, as an option instead of -1. *)
Fixpoint rfind (c : ascii) (s : string) : option nat :=
  match s with
  | EmptyString => None
  | String a s' =>
      match rfind c s' with
      | Some i => Some (S i)
      | None => if Ascii.eqb a c then Some O else None
      end
  end.

(** [s[i:]] *)
Fixpoint drop (i : nat) (s : string) : string :=
  match i, s with
  | O, _ => s
  | S k, String _ s' => drop k s'
  | S _, EmptyString => EmptyString
  end.

(** [s.split(sep)] for a one-character separator: empty pieces are kept. *)
Fixpoint split_on (sep : ascii) (tok s : string) : list string :=
  match s with
  | EmptyString => [tok]
  | String a s' =>
      if Ascii.eqb a sep then tok :: split_on sep EmptyString s'
      else split_on sep (tok +:+ String a EmptyString) s'
  end.

(** [sep.join(l)] *)
Definition join (sep : string) (l : list string) : string :=
  String.concat sep l.

Definition cr : ascii := ascii_of_nat 13.
Definition lf : ascii := ascii_of_nat 10.

(** What a file opened in text mode gives for its decoded text: a carriage
    return with the line feed after it, or alone, is read as one line
    feed. *)
Fixpoint universal_newlines (s : string) : string :=
  match s with
  | EmptyString => EmptyString
  | String a s' =>
      if Ascii.eqb a cr then
        match s' with
        | String b s'' =>
            if Ascii.eqb b lf then String lf (universal_newlines s'')
            else String lf (universal_newlines s')
        | EmptyString => String lf EmptyString
        end
      else String a (universal_newlines s')
  end.

End PyStr.

(** ** Paths: [pathlib.PurePosixPath] and [os.path.join] *)

Module PyPath.

Definition slash : ascii := "/"%char.
Definition dot : ascii := "."%char.

(** [posixpath.splitroot]: the root is ["/"], or ["//"] for exactly two
    leading slashes, and the rest of the path. *)
Definition splitroot (p : string) : string * string :=
  match p with
  | String a (String b (String c r)) =>
      if Ascii.eqb a slash then
        if Ascii.eqb b slash then
          if Ascii.eqb c slash then ("/", String b (String c r))
          else ("//", String c r)
        else ("/", String b (String c r))
      else ("", p)
  | String a (String b EmptyString) =>
      if Ascii.eqb a slash then
        if Ascii.eqb b slash then ("//", "") else ("/", String b "")
      else ("", p)
  | String a EmptyString =>
      if Ascii.eqb a slash then ("/", "") else ("", p)
  | EmptyString => ("", "")
  end.

Definition keep_part (x : string) : bool :=
  PyStr.truthy x && negb (String.eqb x ".").

(** The components of a path: empty ones and ["."] are dropped. *)
Definition parts (p : string) : list string :=
  List.filter keep_part (PyStr.split_on slash "" (snd (splitroot p))).

(** [str(Path(p))] *)
Definition Path (p : string) : string :=
  let s := fst (splitroot p) +:+ PyStr.join "/" (parts p) in
  if PyStr.truthy s then s else ".".

(** [Path(p).name] *)
Definition name (p : string) : string := List.last (parts p) "".

(** [Path(p).suffix]: the text from the last dot of the name, when that
    dot is neither the first nor the last character. *)
Definition suffix (p : string) : string :=
  let n := name p in
  match PyStr.rfind dot n with
  | Some i =>
      if ((0 <? i) && (i <? Nat.pred (String.length n)))%nat
      then PyStr.drop i n else ""
  | None => ""
  end.

(** [Path(p).with_suffix(ext)] for a path that has a name: the name
    without its suffix, followed by [ext]. *)
Definition with_suffix (p ext : string) : string :=
  let s := Path p in
  let keep := (String.length s - String.length (suffix p))%nat in
  String.substring 0 keep s +:+ ext.

(** A text without slash, and a component of a normalised path. *)
Fixpoint no_slash (s : string) : bool :=
  match s with
  | EmptyString => true
  | String a s' => negb (Ascii.eqb a slash) && no_slash s'
  end.

Definition component (x : string) : bool := keep_part x && no_slash x.

(** A text that does not start with a slash. *)
Definition starts_clean (j : string) : bool :=
  match j with
  | EmptyString => true
  | String a _ => negb (Ascii.eqb a slash)
  end.

(** [os.path.join(a, b)] *)
Definition join (a b : string) : string :=
  if String.prefix "/" b then b
  else if negb (PyStr.truthy a) then b
  else if Ascii.eqb (List.last (list_ascii_of_string a) slash) slash
       then a +:+ b
       else a +:+ "/" +:+ b.

End PyPath.

(** ** Values

    The configuration file and the bodies of the HTTP replies are JSON.  A
    float is kept as the text [str] gives for it: the program only formats
    numbers. *)

Inductive scalar :=
| SNone
| SBool (b : bool)
| SInt (z : Z)
| SFloat (repr : string)
| SStr (s : string).

#[warnings="-register-all"]
Inductive json :=
| JScalar (v : scalar)
| JArr (l : list json)
| JObj (m : gmap string json).

Coercion JScalar : scalar >-> json.
Coercion SStr : string >-> scalar.

(** One stage's settings, and the whole configuration: a JSON object with
    one object of scalars per stage. *)
Abbreviation settings := (gmap string scalar).
Abbreviation configuration := (gmap string (gmap string scalar)).

(** [str(v)], which is also what an f-string writes for [v]. *)
Definition py_str (v : scalar) : string :=
  match v with
  | SNone => "None"
  | SBool true => "True"
  | SBool false => "False"
  | SInt z => pretty z
  | SFloat repr => repr
  | SStr s => s
  end.

(** [v == s] for a string literal [s]. *)
Definition eq_str (v : scalar) (s : string) : bool :=
  match v with
  | SStr s' => String.eqb s' s
  | _ => false
  end.

(** The text of a value where Python requires a [str]. *)
Definition as_str (v : json) : option string :=
  match v with
  | JScalar (SStr s) => Some s
  | _ => None
  end.

Definition as_args (cmd : list json) : option (list string) :=
  mapM as_str cmd.

(** ** Exceptions

    The classes the sources raise or catch, and one representative for the
    rest of each family.  [ConnectionError] is the one of [requests];
    [RequestException] is any other failure of that library; [OSError] any
    other error of the operating system.  [IsADirectoryError] is what
    reading or removing a directory raises, and the two Unicode errors are
    those of the codecs. *)

Inductive exn :=
| KeyError (key : string)
| TypeError
| AttributeError
| FileNotFoundError (msg : string)
| CalledProcessError (cmd : list string) (returncode : Z)
                     (stdout stderr : option string)
| ConnectionError
| RequestException
| JSONDecodeError
| OSError
| IsADirectoryError
| UnicodeEncodeError
| UnicodeDecodeError
| KeyboardInterrupt.

(** [except (FileNotFoundError, subprocess.CalledProcessError)] *)
Definition tool_failure (e : exn) : bool :=
  match e with
  | FileNotFoundError _ | CalledProcessError _ _ _ _ => true
  | _ => false
  end.

(** [except Exception]: everything but [KeyboardInterrupt]. *)
Definition is_Exception (e : exn) : bool :=
  match e with
  | KeyboardInterrupt => false
  | _ => true
  end.

Inductive result (A : Type) :=
| Ok (a : A)
| Raise (e : exn).
Arguments Ok {A} a.
Arguments Raise {A} e.

(** ** The world

    What the program does to the outside is kept in a log; the files are a
    map from path to content, paths being identified up to [PyPath.Path].
    An entry is a regular file with its bytes, or a directory, which the
    environment tells ([isdir]); the content of a directory is not used. *)

(** A printed line is a list of pieces: literal text, or the text Python
    gives for a JSON value or for an exception. *)
Inductive piece :=
| Lit (s : string)
| FmtJson (v : json)
| FmtExn (e : exn).

Inductive event :=
| EPrint (line : list piece)
| ERun (cmd : list json)
| EGet (url : string)
| EPost (url : string) (payload : gmap string json).

Record world := World {
  files : gmap string string;
  log : list event
}.

Definition emit (e : event) (w : world) : world :=
  {| files := files w; log := log w ++ [e] |}.

Definition set_files (fs : gmap string string) (w : world) : world :=
  {| files := fs; log := log w |}.

(** Whether something is at the path [p], a file or a directory. *)
Definition on_disk (w : world) (p : string) : bool :=
  bool_decide (is_Some (files w !! PyPath.Path p)).

(** What a process did: it could not be started, or it ran, left the files
    as [files'] and exited. *)
Inductive proc_outcome :=
| SpawnFailed (e : exn)
| Exited (returncode : Z) (out err : string) (files' : gmap string string).

(** A reply: [resp_text] is [response.text] and [body] is what
    [response.json()] decodes, when the text is JSON. *)
Record response := Response {
  status_code : Z;
  resp_text : string;
  body : option json
}.

Inductive http_outcome :=
| RequestFailed (e : exn)
| Responded (r : response).

(** The outside world.  Every answer may depend on the whole history.

    [isdir p] tells whether the entry at the normalised path [p] is a
    directory.  [open_w p w] is the error of [open(p, "w")], if any:
    [FileNotFoundError] when the directory of [p] is missing, another
    [OSError] when writing there is refused.  [utf8 s] is
    [s.encode('utf-8')], and [None] when [s] holds a code point that UTF-8
    refuses (a lone surrogate); [decode b] is the text of the bytes [b] in
    the encoding of the locale, and [None] when they are not valid in it. *)
Record env := Env {
  spawn : list string -> world -> proc_outcome;
  http_get : string -> world -> http_outcome;
  http_post : string -> gmap string json -> world -> http_outcome;
  time : world -> Z;
  gettempdir : string;
  mktemp : string -> world -> string;
  json_loads : string -> option configuration;
  json_dumps : configuration -> string;
  isdir : string -> bool;
  open_w : string -> world -> option exn;
  utf8 : string -> option string;
  decode : string -> option string
}.

(** ** The monad of the program: state and exceptions *)

Definition M (A : Type) : Type := world -> result A * world.

Definition ret {A} (a : A) : M A := fun w => (Ok a, w).

Definition raise {A} (e : exn) : M A := fun w => (Raise e, w).

Definition bind {A B} (m : M A) (k : A -> M B) : M B :=
  fun w =>
    match m w with
    | (Ok a, w') => k a w'
    | (Raise e, w') => (Raise e, w')
    end.

Notation "x <- m ;; k" := (bind m (fun x => k))
  (at level 100, m at next level, right associativity).
Notation "m ;; k" := (bind m (fun _ => k))
  (at level 100, right associativity).

(** [try: body except ...: handler]: [handler e] is [None] when no clause
    matches [e]. *)
Definition try_except {A} (body : M A) (handler : exn -> option (M A)) : M A :=
  fun w =>
    match body w with
    | (Ok a, w') => (Ok a, w')
    | (Raise e, w') =>
        match handler e with
        | Some h => h w'
        | None => (Raise e, w')
        end
    end.

(** [try: body finally: final] *)
Definition try_finally {A} (body : M A) (final : M unit) : M A :=
  fun w =>
    match body w with
    | (r, w') =>
        match final w' with
        | (Ok _, w'') => (r, w'')
        | (Raise e, w'') => (Raise e, w'')
        end
    end.

Definition lift {A} (r : result A) : M A := fun w => (r, w).

(** Sequencing of computations that only fail. *)
Definition and_then {A B} (r : result A) (k : A -> result B) : result B :=
  match r with
  | Ok a => k a
  | Raise e => Raise e
  end.

(** [d[k]] *)
Definition getitem {V} (d : gmap string V) (k : string) : result V :=
  match d !! k with
  | Some v => Ok v
  | None => Raise (KeyError k)
  end.

(** [d.get(k, v)] *)
Definition get {V} (d : gmap string V) (k : string) (v : V) : V :=
  default v (d !! k).

Definition print (line : list piece) : M unit :=
  fun w => (Ok tt, emit (EPrint line) w).

Definition nl : string := String (ascii_of_nat 10) EmptyString.

(** The operators of the monad are unfolded together in the proofs. *)
Create HintDb monad.
#[global] Hint Unfold bind ret raise lift and_then getitem print : monad.

Ltac run f := unfold f; autounfold with monad.

(** ** The primitives of the standard library and of [requests] *)

Record completed := Completed {
  stdout : option string;
  stderr : option string
}.

Definition opt_str (o : option string) : string := default "None" o.

Section Program.

Context (E : env).

(** [subprocess.run(cmd, check=True)], with [capture_output=True,
    text=True] when [capture] is set.  An argument that is not a [str] is
    a [TypeError] before anything is started; a non-zero exit status is a
    [CalledProcessError]. *)
Definition subprocess_run (capture : bool) (cmd : list json) : M completed :=
  fun w =>
    let w1 := emit (ERun cmd) w in
    match as_args cmd with
    | None => (Raise TypeError, w1)
    | Some argv =>
        match spawn E argv w1 with
        | SpawnFailed e => (Raise e, w1)
        | Exited rc out err fs =>
            let o := if capture then Some out else None in
            let e := if capture then Some err else None in
            if rc =? 0 then (Ok (Completed o e), set_files fs w1)
            else (Raise (CalledProcessError argv rc o e), set_files fs w1)
        end
    end.

(** [Path(p).exists()], [os.path.exists(p)]: true of a file and of a
    directory. *)
Definition path_exists (p : string) : M bool :=
  fun w => (Ok (on_disk w p), w).

(** [open(p, "r").read()]: the file is read in text mode, so its bytes
    are decoded and every line ending is read as a line feed. *)
Definition read_text (p : string) : M string :=
  fun w =>
    match files w !! PyPath.Path p with
    | Some bytes =>
        if isdir E (PyPath.Path p) then (Raise IsADirectoryError, w)
        else
          match decode E bytes with
          | Some text => (Ok (PyStr.universal_newlines text), w)
          | None => (Raise UnicodeDecodeError, w)
          end
    | None => (Raise (FileNotFoundError p), w)
    end.

(** [f.write(c)] on the file [p], which is open for writing. *)
Definition file_write (p c : string) : M unit :=
  fun w => (Ok tt, set_files (<[PyPath.Path p := c]> (files w)) w).

(** [with open(p, "w") as f: f.write(c)]: nothing is written when the
    file cannot be opened. *)
Definition write_text (p c : string) : M unit :=
  fun w =>
    match open_w E p w with
    | Some e => (Raise e, w)
    | None => file_write p c w
    end.

(** [os.remove(p)], [os.unlink(p)]: a directory is not removed. *)
Definition os_remove (p : string) : M unit :=
  fun w =>
    match files w !! PyPath.Path p with
    | Some _ =>
        if isdir E (PyPath.Path p) then (Raise IsADirectoryError, w)
        else (Ok tt, set_files (delete (PyPath.Path p) (files w)) w)
    | None => (Raise (FileNotFoundError p), w)
    end.

(** [tempfile.NamedTemporaryFile(suffix=..., delete=False)]: a new, empty
    file; its name. *)
Definition NamedTemporaryFile (suffix : string) : M string :=
  fun w =>
    let name := mktemp E suffix w in
    (Ok name, set_files (<[PyPath.Path name := ""]> (files w)) w).

(** [text.encode('utf-8')]: only a [str] has the method, and UTF-8
    refuses some texts. *)
Definition encode (text : json) : result string :=
  match as_str text with
  | Some s =>
      match utf8 E s with
      | Some bytes => Ok bytes
      | None => Raise UnicodeEncodeError
      end
  | None => Raise AttributeError
  end.

(** [int(time.time())] *)
Definition now : M Z := fun w => (Ok (time E w), w).

(** [requests.get(url)] *)
Definition requests_get (url : string) : M response :=
  fun w =>
    let w1 := emit (EGet url) w in
    match http_get E url w1 with
    | RequestFailed e => (Raise e, w1)
    | Responded r => (Ok r, w1)
    end.

(** [requests.post(url, json=payload)] *)
Definition requests_post (url : string) (payload : gmap string json) : M response :=
  fun w =>
    let w1 := emit (EPost url payload) w in
    match http_post E url payload w1 with
    | RequestFailed e => (Raise e, w1)
    | Responded r => (Ok r, w1)
    end.

(** [response.json()] *)
Definition response_json (r : response) : result json :=
  match body r with
  | Some j => Ok j
  | None => Raise JSONDecodeError
  end.

(** [result.get(k, d)] on a decoded body: only an object has the method. *)
Definition json_get (j : json) (k : string) (d : json) : result json :=
  match j with
  | JObj m => Ok (default d (m !! k))
  | _ => Raise AttributeError
  end.

(** [Path(v)] for a configured value. *)
Definition Path_of (v : scalar) : result string :=
  match v with
  | SStr s => Ok (PyPath.Path s)
  | _ => Raise TypeError
  end.

(** [v.split()] for a configured value. *)
Definition split_of (v : scalar) : result (list string) :=
  match v with
  | SStr s => Ok (PyStr.split s)
  | _ => Raise AttributeError
  end.

(** *** modules/audio_input.py *)

Definition arecord_cmd (device : scalar) (sample_rate duration : scalar)
           (output_file : string) : list json :=
  [ JScalar "arecord"; JScalar "-D"; JScalar device; JScalar "-f"; JScalar "S16_LE";
    JScalar "-c"; JScalar "1"; JScalar "-r"; JScalar (py_str sample_rate);
    JScalar "-d"; JScalar (py_str duration); JScalar output_file ].

Definition rec_cmd (sample_rate duration : scalar) (output_file : string)
  : list json :=
  [ JScalar "rec"; JScalar "-q"; JScalar output_file;
    JScalar "rate"; JScalar (py_str sample_rate);
    JScalar "channels"; JScalar "1";
    JScalar "trim"; JScalar "0"; JScalar (py_str duration) ].

Definition record_audio (config : settings) : M string :=
  let duration := get config "duration" (SInt 5) in
  let sample_rate := get config "sample_rate" (SInt 16000) in
  let device := get config "device" (SStr "default") in
  t <- now ;;
  let output_file :=
    PyPath.join (gettempdir E) ("recording_" +:+ pretty t +:+ ".wav") in
  try_except
    (subprocess_run false (arecord_cmd device sample_rate duration output_file) ;;
     ret output_file)
    (fun e =>
       if tool_failure e then Some
         (try_except
            (subprocess_run false (rec_cmd sample_rate duration output_file) ;;
             ret output_file)
            (fun e =>
               if tool_failure e then Some
                 (print [Lit "Error recording audio: "; FmtExn e] ;;
                  print [Lit "Make sure you have either ALSA tools (arecord) or SoX (rec) installed."] ;;
                  print [Lit "Install with: sudo apt-get install alsa-utils or sudo apt-get install sox"] ;;
                  raise e)
               else None))
       else None).

(** *** modules/whisper_stt.py *)

(** Lines 24-27: the text of the error for a missing executable. *)
Definition not_found_message (whisper_executable : string) : string :=
  "Whisper executable not found at " +:+ whisper_executable +:+ ". "
  +:+ "Please install whisper.cpp and update the config.".

(** Line 50: where the transcript file is looked for. *)
Definition output_file (audio_file : string) : string :=
  PyPath.Path (PyStr.replace audio_file (PyPath.suffix audio_file) ".txt").

(** Lines 29-39: the command line. *)
Definition whisper_cmd (whisper_executable audio_file : string)
           (config : settings) : result (list json) :=
  and_then (getitem config "model") (fun model =>
  let cmd : list json :=
    [ JScalar whisper_executable; JScalar "-f"; JScalar audio_file; JScalar "-m";
      JScalar ("./whisper.cpp/models/ggml-" +:+ py_str model +:+ ".bin");
      JScalar "-otxt" ] in
  match config !! "params" with
  | Some params =>
      and_then (split_of params) (fun l =>
      Ok (cmd ++ map (fun param : string => JScalar param) l)%list)
  | None => Ok cmd
  end).

Definition transcribe_audio (audio_file : string) (config : settings) : M string :=
  whisper_executable <-
    lift (and_then (getitem config "executable") Path_of) ;;
  found <- path_exists whisper_executable ;;
  if negb found then
    raise (FileNotFoundError (not_found_message whisper_executable))
  else
    cmd <- lift (whisper_cmd whisper_executable audio_file config) ;;
    try_except
      (result <- subprocess_run true cmd ;;
       found <- path_exists (output_file audio_file) ;;
       if found then
         transcript <- read_text (output_file audio_file) ;;
         os_remove (output_file audio_file) ;;
         ret (PyStr.strip transcript)
       else
         ret (PyStr.strip (opt_str (stdout result))))
      (fun e =>
         match e with
         | CalledProcessError _ _ _ err => Some
             (print [Lit "Error running whisper.cpp: "; FmtExn e] ;;
              print [Lit "stderr: "; Lit (opt_str err)] ;;
              ret "")
         | _ => None
         end).

(** *** modules/ollama_process.py *)

Definition tags_url : string := "http://localhost:11434/api/tags".
Definition generate_url : string := "http://localhost:11434/api/generate".

Definition connect_apology : string :=
  "Sorry, I'm having trouble connecting to my thinking module.".
Definition error_apology : string :=
  "Sorry, I encountered an error while processing your request.".

Definition payload (model : scalar) (text : string) (system_prompt : scalar)
  : gmap string json :=
  <["model" := JScalar model]>
    (<["prompt" := JScalar text]>
       (<["system" := JScalar system_prompt]>
          (<["stream" := JScalar (SBool false)]> ∅))).

(** Lines 22-30: the check that the server is running.  [Some r] is an
    early [return r]. *)
Definition check_running : M (option json) :=
  try_except
    (response <- requests_get tags_url ;;
     if negb (status_code response =? 200) then
       print [Lit "Ollama server not responding. Make sure it's running."] ;;
       ret (Some (JScalar connect_apology))
     else ret None)
    (fun e =>
       match e with
       | ConnectionError => Some
           (print [Lit "Ollama server not running. Please start ollama service."] ;;
            ret (Some (JScalar connect_apology)))
       | _ => None
       end).

Definition process_with_ollama (text : string) (config : settings) : M json :=
  model <- lift (getitem config "model") ;;
  let system_prompt := get config "system_prompt" (SStr "You are a helpful assistant.") in
  early <- check_running ;;
  match early with
  | Some r => ret r
  | None =>
      try_except
        (response <- requests_post generate_url (payload model text system_prompt) ;;
         if status_code response =? 200 then
           result <- lift (response_json response) ;;
           lift (json_get result "response" (JScalar ""))
         else
           print [Lit "Error from ollama API: "; Lit (pretty (status_code response))] ;;
           print [Lit (resp_text response)] ;;
           ret (JScalar error_apology))
        (fun e =>
           if is_Exception e then Some
             (print [Lit "Error calling ollama: "; FmtExn e] ;;
              ret (JScalar error_apology))
           else None)
  end.

(** *** modules/tts.py *)

Definition players : list (string * list string) :=
  [ ("aplay", []); ("paplay", []); ("play", ["-q"]) ].

(** The loop of [play_audio] over the players still to try. *)
Fixpoint play_with (players : list (string * list string)) (audio_file : string)
  : M unit :=
  match players with
  | [] => print [Lit "No suitable audio player found. Install aplay, paplay, or sox."]
  | (player, args) :: rest =>
      played <-
        try_except
          (subprocess_run false
             (map (fun a : string => JScalar a) ([player] ++ args ++ [audio_file])%list) ;;
           ret true)
          (fun e => if tool_failure e then Some (ret false) else None) ;;
      if played : bool then ret tt else play_with rest audio_file
  end.

Definition play_audio (audio_file : string) : M unit :=
  play_with players audio_file.

Definition _tts_piper (text : json) (config : settings) : M unit :=
  let voice := get config "voice" (SStr "en_US-amy-medium") in
  text_file_path <- NamedTemporaryFile ".txt" ;;
  data <- lift (encode text) ;;
  file_write text_file_path data ;;
  let output_file := PyPath.join (gettempdir E) "tts_output.wav" in
  try_finally
    (try_except
       (subprocess_run false
          [ JScalar "piper";
            JScalar "--model"; JScalar ("piper-voices/" +:+ py_str voice +:+ "/model.onnx");
            JScalar "--output_file"; JScalar output_file;
            JScalar "--text_file"; JScalar text_file_path ] ;;
        play_audio output_file)
       (fun e =>
          match e with
          | FileNotFoundError _ => Some
              (print [Lit "Piper not found. Make sure it's installed."] ;;
               print [Lit "Install with: pip install piper-tts"])
          | CalledProcessError _ _ _ _ => Some
              (print [Lit "Error running piper: "; FmtExn e])
          | _ => None
          end))
    (os_remove text_file_path ;;
     found <- path_exists output_file ;;
     if found then os_remove output_file else ret tt).

Definition _tts_espeak (text : json) (config : settings) : M unit :=
  let voice := get config "voice" (SStr "en") in
  let speed := get config "speed" (SInt 150) in
  try_except
    (subprocess_run false
       [ JScalar "espeak"; JScalar "-v"; JScalar voice;
         JScalar "-s"; JScalar (py_str speed); text ] ;;
     ret tt)
    (fun e =>
       match e with
       | FileNotFoundError _ => Some
           (print [Lit "espeak not found. Make sure it's installed."] ;;
            print [Lit "Install with: sudo apt-get install espeak"])
       | CalledProcessError _ _ _ _ => Some
           (print [Lit "Error running espeak: "; FmtExn e])
       | _ => None
       end).

Definition text_to_speech (text : json) (config : settings) : M unit :=
  let engine := get config "engine" (SStr "piper") in
  if eq_str engine "piper" then _tts_piper text config
  else if eq_str engine "espeak" then _tts_espeak text config
  else
    print [Lit ("Unsupported TTS engine: " +:+ py_str engine)] ;;
    print [Lit "Supported engines: piper, espeak"].

End Program.

(** ** main.py *)

(** The parsed command line. *)
Record args := Args {
  config : string;
  model : option string;
  whisper_model : option string;
  tts_engine : option string;
  continuous : bool
}.

Definition default_config : configuration :=
  <["whisper" :=
      <["model" := SStr "base.en"]>
        (<["executable" := SStr "./whisper.cpp/main"]>
           (<["params" := SStr "--model models/ggml-base.en.bin -l en"]> ∅))]>
    (<["ollama" :=
         <["model" := SStr "llama3"]>
           (<["system_prompt" :=
                SStr "You are a helpful voice assistant. Provide concise responses."]> ∅)]>
       (<["tts" :=
            <["engine" := SStr "piper"]> (<["voice" := SStr "en_US-amy-medium"]> ∅)]>
          (<["audio" :=
               <["device" := SStr "default"]>
                 (<["sample_rate" := SInt 16000]> (<["duration" := SInt 5]> ∅))]> ∅))).

(** [config[sec][key]] *)
Definition getitem2 (config : configuration) (sec key : string) : result scalar :=
  and_then (getitem config sec) (fun s => getitem s key).

(** [config[sec][key] = v] *)
Definition setitem2 (config : configuration) (sec key : string) (v : scalar)
  : result configuration :=
  and_then (getitem config sec) (fun s => Ok (<[sec := <[key := v]> s]> config)).

(** [if flag: config[sec][key] = flag]: an absent flag is [None], and both
    [None] and the empty string are false. *)
Definition override (flag : option string) (sec key : string)
           (config : configuration) : result configuration :=
  match flag with
  | Some v => if PyStr.truthy v then setitem2 config sec key (SStr v) else Ok config
  | None => Ok config
  end.

(** Lines 39-45 of [main]. *)
Definition override_config (a : args) (config : configuration)
  : result configuration :=
  and_then (override (model a) "ollama" "model" config) (fun config =>
  and_then (override (whisper_model a) "whisper" "model" config) (fun config =>
  override (tts_engine a) "tts" "engine" config)).

Section Main.

Context (E : env).

(** The body of [run_assistant], over the four names that [main.py]
    imports from the modules: the cycle calls what they are bound to. *)
Definition run_assistant_with
    (record_audio : settings -> M string)
    (transcribe_audio : string -> settings -> M string)
    (process_with_ollama : string -> settings -> M json)
    (text_to_speech : json -> settings -> M unit)
    (config : configuration) : M unit :=
  print [Lit (nl +:+ "Listening... (press Ctrl+C to stop)")] ;;
  audio <- lift (getitem config "audio") ;;
  audio_file <- record_audio audio ;;
  print [Lit "Transcribing..."] ;;
  whisper <- lift (getitem config "whisper") ;;
  transcript <- transcribe_audio audio_file whisper ;;
  print [Lit ("You said: " +:+ transcript)] ;;
  if negb (PyStr.truthy (PyStr.strip transcript)) then
    print [Lit "No speech detected. Please try again."]
  else
    print [Lit "Processing with Ollama..."] ;;
    ollama <- lift (getitem config "ollama") ;;
    response <- process_with_ollama transcript ollama ;;
    print [Lit "Assistant: "; FmtJson response] ;;
    print [Lit "Converting to speech..."] ;;
    tts <- lift (getitem config "tts") ;;
    text_to_speech response tts.

(** [run_assistant], with the stages of the four modules. *)
Definition run_assistant (config : configuration) : M unit :=
  run_assistant_with (record_audio E) (transcribe_audio E)
                     (process_with_ollama E) (text_to_speech E) config.

Definition create_default_config (config_path : string) : M unit :=
  write_text E config_path (json_dumps E default_config).

(** [while True: body], cut after [fuel] rounds: [None] when the loop is
    still running then.  The loop itself never ends normally. *)
Fixpoint while_true (fuel : nat) (body : M unit) : M (option unit) :=
  match fuel with
  | O => ret None
  | S n => body ;; while_true n body
  end.

(** [main], after [parse_args].  The result is [None] when the continuous
    mode is still running after [fuel] cycles. *)
Definition main (a : args) (fuel : nat) : M (option unit) :=
  found <- path_exists (config a) ;;
  (if negb found then
     print [Lit ("Config file not found: " +:+ config a)] ;;
     create_default_config (config a) ;;
     print [Lit ("Created default config at " +:+ config a)]
   else ret tt) ;;
  content <- read_text E (config a) ;;
  config <- lift (match json_loads E content with
                  | Some c => Ok c
                  | None => Raise JSONDecodeError
                  end) ;;
  config <- lift (override_config a config) ;;
  whisper <- lift (getitem2 config "whisper" "model") ;;
  print [Lit ("Using whisper model: " +:+ py_str whisper)] ;;
  ollama <- lift (getitem2 config "ollama" "model") ;;
  print [Lit ("Using ollama model: " +:+ py_str ollama)] ;;
  tts <- lift (getitem2 config "tts" "engine") ;;
  print [Lit ("Using TTS engine: " +:+ py_str tts)] ;;
  if continuous a then
    print [Lit "Running in continuous mode. Press Ctrl+C to exit."] ;;
    try_except
      (while_true fuel (run_assistant config))
      (fun e =>
         match e with
         | KeyboardInterrupt => Some
             (print [Lit (nl +:+ "Exiting voice assistant.")] ;; ret (Some tt))
         | _ => None
         end)
  else
    run_assistant config ;; ret (Some tt).

End Main.

(** ** Concrete worlds for the examples

    In [quiet_env] every tool is installed and exits with status 0 printing
    [out], and the server answers 200 with the body [reply].  No entry is a
    directory, every file can be written, and the texts are ASCII: the
    codecs leave them as they are. *)

Definition quiet_env (out : string) (reply : option json) : env :=
  {| spawn := fun _ w => Exited 0 out "" (files w);
     http_get := fun _ _ => Responded (Response 200 "{}" (Some (JObj ∅)));
     http_post := fun _ _ _ => Responded (Response 200 "" reply);
     time := fun _ => 1700000000;
     gettempdir := "/tmp";
     mktemp := fun suffix _ => "/tmp/tmpk3x9" +:+ suffix;
     json_loads := fun _ => Some default_config;
     json_dumps := fun _ => "{}";
     isdir := fun _ => false;
     open_w := fun _ _ => None;
     utf8 := fun s => Some s;
     decode := fun b => Some b |}.

(** The world of [quiet_env ""] with another server: [listing] is the
    outcome of every GET and [generation] of every POST. *)
Definition http_env (listing generation : http_outcome) : env :=
  {| spawn := spawn (quiet_env "" None);
     http_get := fun _ _ => listing;
     http_post := fun _ _ _ => generation;
     time := time (quiet_env "" None);
     gettempdir := "/tmp";
     mktemp := mktemp (quiet_env "" None);
     json_loads := json_loads (quiet_env "" None);
     json_dumps := json_dumps (quiet_env "" None);
     isdir := isdir (quiet_env "" None);
     open_w := open_w (quiet_env "" None);
     utf8 := utf8 (quiet_env "" None);
     decode := decode (quiet_env "" None) |}.

(** The world of [quiet_env ""] where the configuration file reads as
    [loaded]. *)
Definition loading_env (loaded : configuration) : env :=
  {| spawn := spawn (quiet_env "" None);
     http_get := http_get (quiet_env "" None);
     http_post := http_post (quiet_env "" None);
     time := time (quiet_env "" None);
     gettempdir := "/tmp";
     mktemp := mktemp (quiet_env "" None);
     json_loads := fun _ => Some loaded;
     json_dumps := json_dumps (quiet_env "" None);
     isdir := isdir (quiet_env "" None);
     open_w := open_w (quiet_env "" None);
     utf8 := utf8 (quiet_env "" None);
     decode := decode (quiet_env "" None) |}.

(** No server is listening. *)
Definition offline_env : env :=
  http_env (RequestFailed ConnectionError) (RequestFailed ConnectionError).

(** The world of [quiet_env ""] with other tools: [sp] answers for every
    process that is started. *)
Definition tools_env (sp : list string -> world -> proc_outcome) : env :=
  {| spawn := sp;
     http_get := http_get (quiet_env "" None);
     http_post := http_post (quiet_env "" None);
     time := time (quiet_env "" None);
     gettempdir := "/tmp";
     mktemp := mktemp (quiet_env "" None);
     json_loads := json_loads (quiet_env "" None);
     json_dumps := json_dumps (quiet_env "" None);
     isdir := isdir (quiet_env "" None);
     open_w := open_w (quiet_env "" None);
     utf8 := utf8 (quiet_env "" None);
     decode := decode (quiet_env "" None) |}.


(** Every process succeeds, prints nothing and writes [written] to the
    file [path]. *)
Definition writing_env (path written : string) : env :=
  tools_env (fun _ w => Exited 0 "" "" (<[path := written]> (files w))).

(** No tool is installed. *)
Definition bare_env : env :=
  tools_env (fun argv _ => SpawnFailed (FileNotFoundError (default "" (head argv)))).

(** The world of [quiet_env ""] where no file can be made: the directory
    is missing. *)
Definition unwritable_env : env :=
  {| spawn := spawn (quiet_env "" None);
     http_get := http_get (quiet_env "" None);
     http_post := http_post (quiet_env "" None);
     time := time (quiet_env "" None);
     gettempdir := "/tmp";
     mktemp := mktemp (quiet_env "" None);
     json_loads := json_loads (quiet_env "" None);
     json_dumps := json_dumps (quiet_env "" None);
     isdir := isdir (quiet_env "" None);
     open_w := fun p _ => Some (FileNotFoundError p);
     utf8 := utf8 (quiet_env "" None);
     decode := decode (quiet_env "" None) |}.

(** The world of [quiet_env ""] where UTF-8 refuses the text [refused]. *)
Definition strict_env (refused : string) : env :=
  {| spawn := spawn (quiet_env "" None);
     http_get := http_get (quiet_env "" None);
     http_post := http_post (quiet_env "" None);
     time := time (quiet_env "" None);
     gettempdir := "/tmp";
     mktemp := mktemp (quiet_env "" None);
     json_loads := json_loads (quiet_env "" None);
     json_dumps := json_dumps (quiet_env "" None);
     isdir := isdir (quiet_env "" None);
     open_w := open_w (quiet_env "" None);
     utf8 := fun s => if String.eqb s refused then None else Some s;
     decode := decode (quiet_env "" None) |}.

(** The world of [quiet_env ""] where the entry at [dir] is a directory,
    which the system refuses to run. *)
Definition directory_env (dir : string) : env :=
  {| spawn := fun argv w =>
                if String.eqb (default "" (head argv)) dir then SpawnFailed OSError
                else Exited 0 "" "" (files w);
     http_get := http_get (quiet_env "" None);
     http_post := http_post (quiet_env "" None);
     time := time (quiet_env "" None);
     gettempdir := "/tmp";
     mktemp := mktemp (quiet_env "" None);
     json_loads := json_loads (quiet_env "" None);
     json_dumps := json_dumps (quiet_env "" None);
     isdir := fun p => String.eqb p dir;
     open_w := open_w (quiet_env "" None);
     utf8 := utf8 (quiet_env "" None);
     decode := decode (quiet_env "" None) |}.

(** The user presses Ctrl+C while a process runs. *)
Definition interrupted_env : env :=
  tools_env (fun _ _ => SpawnFailed KeyboardInterrupt).

(** A machine on which whisper.cpp is installed. *)
Definition installed : world :=
  {| files := {[ "whisper.cpp/main" := "" ]}; log := [] |}.

(** That machine after a recording with the default settings at the time
    of [quiet_env], and after the transcription that follows. *)
Definition recorded : world :=
  {| files := files installed;
     log := [ EPrint [Lit (nl +:+ "Listening... (press Ctrl+C to stop)")];
              ERun (arecord_cmd "default" (SInt 16000) (SInt 5)
                                "/tmp/recording_1700000000.wav") ] |}.

Definition transcribed : world :=
  {| files := files installed;
     log := (log recorded ++
             [ EPrint [Lit "Transcribing..."];
               ERun (map (fun a : string => JScalar a)
                       [ "whisper.cpp/main"; "-f"; "/tmp/recording_1700000000.wav";
                         "-m"; "./whisper.cpp/models/ggml-base.en.bin"; "-otxt";
                         "--model"; "models/ggml-base.en.bin"; "-l"; "en" ]) ])%list |}.

(** A machine without whisper.cpp. *)
Definition bare : world := {| files := ∅; log := [] |}.

(** The events that are HTTP requests, and the computations that send
    none. *)
Definition is_request (e : event) : bool :=
  match e with
  | EGet _ | EPost _ _ => true
  | _ => false
  end.

Definition requests (w : world) : list event := List.filter is_request (log w).

Definition offline {A} (m : M A) : Prop :=
  forall w, requests (snd (m w)) = requests w.

(** [config[sec][key]] when both keys are there. *)
Definition lookup2 (config : configuration) (sec key : string) : option scalar :=
  config !! sec ≫= (fun s => s !! key).

(** The three settings the command line can override. *)
Definition overridable : list (string * string) :=
  [ ("ollama", "model"); ("whisper", "model"); ("tts", "engine") ].

(** ** Observations for the further properties *)

(** The events that are calls of [subprocess.run]. *)
Definition is_run (e : event) : bool :=
  match e with
  | ERun _ => true
  | _ => false
  end.

Definition processes (w : world) : list event := List.filter is_run (log w).

(** What a computation without processes leaves alone: the files and the
    list of the processes started so far. *)
Definition local_state (w : world) : gmap string string * list event :=
  (files w, processes w).

(** [m] leaves the observation [obs] of the world as it was. *)
Definition preserves {S A} (obs : world -> S) (m : M A) : Prop :=
  forall w, obs (snd (m w)) = obs w.

(** [m] never ends with an exception of the class [P]. *)
Definition never {A} (P : exn -> bool) (m : M A) : Prop :=
  forall w e, fst (m w) = Raise e -> P e = false.

Definition is_CalledProcessError (e : exn) : bool :=
  match e with
  | CalledProcessError _ _ _ _ => true
  | _ => false
  end.

(** The outcome of a call of [subprocess.run] that the handlers for
    [FileNotFoundError] and [CalledProcessError] take. *)
Definition failed_tool (r : result completed * world) : Prop :=
  exists e, fst r = Raise e /\ tool_failure e = true.

(** Every value [m] returns satisfies [Q]. *)
Definition returns {A} (Q : A -> Prop) (m : M A) : Prop :=
  forall w a w', m w = (Ok a, w') -> Q a.

(** A text that does not start with whitespace. *)
Definition text_first (s : string) : bool :=
  match s with
  | EmptyString => true
  | String a _ => negb (PyStr.is_space a)
  end.

(** A flag that [main] applies: given on the command line with a value that
    is not empty. *)
Definition given (flag : option string) : Prop :=
  exists v, flag = Some v /\ v <> "".

(** [s.find(old)], as an option instead of -1. *)
Fixpoint str_find (old s : string) : option nat :=
  match s with
  | EmptyString => match old with EmptyString => Some O | _ => None end
  | String _ s' =>
      if String.prefix old s then Some O else option_map S (str_find old s')
  end.

(** The requests [m] adds to those already sent satisfy [S]. *)
Definition sends {A} (S : list event -> Prop) (m : M A) : Prop :=
  forall w, exists sent, requests (snd (m w)) = (requests w ++ sent)%list /\ S sent.

(** What one cycle may send: nothing, the check, or the check and one
    generation request. *)
Definition cycle_requests (sent : list event) : Prop :=
  sent = [] \/ sent = [EGet tags_url]
  \/ exists request, sent = [EGet tags_url; EPost generate_url request].

(** * Properties *)

Open Scope list_scope.

(** ** Strings *)

Lemma all_space_lstrip (s : string) :
  PyStr.all_space (PyStr.lstrip s) = PyStr.all_space s.
Proof.
  induction s as [|a s IH]; simpl; [reflexivity|].
  destruct (PyStr.is_space a) eqn:Ha; simpl; [exact IH|].
  rewrite Ha. reflexivity.
Qed.

Lemma truthy_rstrip (s : string) :
  PyStr.truthy (PyStr.rstrip s) = negb (PyStr.all_space s).
Proof.
  induction s as [|a s IH]; simpl; [reflexivity|].
  destruct (PyStr.rstrip s) eqn:Hr; simpl in *.
  - destruct (PyStr.all_space s); [|discriminate].
    destruct (PyStr.is_space a); reflexivity.
  - destruct (PyStr.all_space s); [discriminate|].
    rewrite andb_false_r. reflexivity.
Qed.

(** [not s.strip()] holds exactly for the strings made of whitespace. *)
Lemma truthy_strip (s : string) :
  PyStr.truthy (PyStr.strip s) = negb (PyStr.all_space s).
Proof.
  unfold PyStr.strip. rewrite truthy_rstrip, all_space_lstrip. reflexivity.
Qed.

Example strip_ex : PyStr.strip (" hi  there" +:+ String (ascii_of_nat 10) "") = "hi  there".
Proof. reflexivity. Qed.

Example split_ex : PyStr.split "--model models/ggml-base.en.bin  -l en " =
                   ["--model"; "models/ggml-base.en.bin"; "-l"; "en"].
Proof. reflexivity. Qed.

Example replace_ex : PyStr.replace "/tmp/recording_17.wav" ".wav" ".txt" = "/tmp/recording_17.txt".
Proof. reflexivity. Qed.

Example replace_all_ex : PyStr.replace "abab" "ab" "X" = "XX".
Proof. reflexivity. Qed.

Example replace_empty_ex : PyStr.replace "abc" "" "-" = "-a-b-c-".
Proof. reflexivity. Qed.

Example Path_ex : PyPath.Path "./whisper.cpp//main/" = "whisper.cpp/main".
Proof. reflexivity. Qed.

Example suffix_ex :
  (PyPath.suffix "/a.b/rec.tar.gz", PyPath.suffix "/a.b/rec", PyPath.suffix ".bashrc",
   PyPath.suffix "rec.", PyPath.suffix "..") = (".gz", "", "", "", "").
Proof. reflexivity. Qed.

(** ** Paths

    Normalising a path twice is normalising it once, so a path taken from a
    [Path] object names the same file as the text it was made from. *)

Lemma append_cons (x : ascii) (a b : string) : String x a +:+ b = String x (a +:+ b).
Proof. reflexivity. Qed.

Lemma append_nil_l (b : string) : "" +:+ b = b.
Proof. reflexivity. Qed.

Lemma app_assoc_s (a b c : string) : (a +:+ b) +:+ c = a +:+ (b +:+ c).
Proof.
  induction a as [|x a IH]; [reflexivity|].
  rewrite !append_cons, IH. reflexivity.
Qed.

Lemma app_nil_s (a : string) : a +:+ "" = a.
Proof.
  induction a as [|x a IH]; [reflexivity|].
  rewrite append_cons, IH. reflexivity.
Qed.

Lemma split_on_clean (x tok rest : string) :
  PyPath.no_slash x = true ->
  PyStr.split_on PyPath.slash tok (x +:+ rest)
  = PyStr.split_on PyPath.slash (tok +:+ x) rest.
Proof.
  revert tok. induction x as [|a x IH]; intros tok Hx.
  - rewrite app_nil_s. reflexivity.
  - simpl in Hx. apply andb_true_iff in Hx as [Ha Hx].
    apply negb_true_iff in Ha.
    rewrite append_cons. simpl. rewrite Ha, IH by assumption.
    rewrite app_assoc_s. reflexivity.
Qed.

Lemma split_on_join (x : string) (ps : list string) :
  forallb PyPath.no_slash (x :: ps) = true ->
  PyStr.split_on PyPath.slash "" (PyStr.join "/" (x :: ps)) = x :: ps.
Proof.
  revert x. induction ps as [|y ps IH]; intros x Hall.
  - simpl in *. rewrite andb_true_r in Hall.
    rewrite <- (app_nil_s x) at 1. rewrite split_on_clean by assumption.
    reflexivity.
  - simpl in Hall. apply andb_true_iff in Hall as [Hx Hall].
    change (PyStr.join "/" (x :: y :: ps)) with (x +:+ "/" +:+ PyStr.join "/" (y :: ps)).
    rewrite split_on_clean by assumption. simpl.
    f_equal. apply IH. exact Hall.
Qed.

Lemma split_on_no_slash (tok s : string) :
  PyPath.no_slash tok = true ->
  forallb PyPath.no_slash (PyStr.split_on PyPath.slash tok s) = true.
Proof.
  revert tok. induction s as [|a s IH]; intros tok Htok; simpl.
  - rewrite Htok. reflexivity.
  - destruct (Ascii.eqb a PyPath.slash) eqn:Ha; simpl.
    + rewrite Htok. apply IH. reflexivity.
    + apply IH. clear IH. induction tok as [|b tok IHt]; simpl in *.
      * rewrite Ha. reflexivity.
      * apply andb_true_iff in Htok as [Hb Htok]. rewrite Hb. auto.
Qed.

Lemma parts_component (p : string) : forallb PyPath.component (PyPath.parts p) = true.
Proof.
  unfold PyPath.parts.
  pose proof (split_on_no_slash "" (snd (PyPath.splitroot p)) eq_refl) as H.
  induction (PyStr.split_on PyPath.slash "" (snd (PyPath.splitroot p))) as [|x l IH];
    [reflexivity|].
  simpl in *. apply andb_true_iff in H as [Hx Hl].
  destruct (PyPath.keep_part x) eqn:Hk; simpl; auto.
  unfold PyPath.component. rewrite Hk, Hx. simpl. auto.
Qed.

Lemma filter_components (ps : list string) :
  forallb PyPath.component ps = true -> List.filter PyPath.keep_part ps = ps.
Proof.
  induction ps as [|x ps IH]; [reflexivity|]. simpl.
  intros H. apply andb_true_iff in H as [Hx Hps].
  unfold PyPath.component in Hx. apply andb_true_iff in Hx as [Hk _].
  rewrite Hk, IH by assumption. reflexivity.
Qed.

Lemma components_no_slash (ps : list string) :
  forallb PyPath.component ps = true -> forallb PyPath.no_slash ps = true.
Proof.
  induction ps as [|x ps IH]; [reflexivity|]. simpl.
  intros H. apply andb_true_iff in H as [Hx Hps].
  unfold PyPath.component in Hx. apply andb_true_iff in Hx as [_ Hx].
  rewrite Hx. auto.
Qed.

Lemma join_starts_clean (ps : list string) :
  forallb PyPath.component ps = true -> PyPath.starts_clean (PyStr.join "/" ps) = true.
Proof.
  destruct ps as [|x ps]; [reflexivity|]. simpl.
  intros H. apply andb_true_iff in H as [Hx _].
  unfold PyPath.component, PyPath.keep_part in Hx.
  destruct x as [|a x]; [discriminate|].
  simpl in Hx. apply andb_true_iff in Hx as [_ Hx].
  apply andb_true_iff in Hx as [Ha _].
  destruct ps; simpl; exact Ha.
Qed.

Lemma splitroot_root (p : string) :
  fst (PyPath.splitroot p) = "" \/ fst (PyPath.splitroot p) = "/"
  \/ fst (PyPath.splitroot p) = "//".
Proof.
  destruct p as [|a [|b [|c r]]]; simpl; auto;
    repeat match goal with
           | |- context [Ascii.eqb ?x ?y] => destruct (Ascii.eqb x y)
           end; simpl; auto.
Qed.

Lemma splitroot_rebuilt (root j : string) :
  root = "" \/ root = "/" \/ root = "//" ->
  PyPath.starts_clean j = true ->
  PyPath.splitroot (root +:+ j) = (root, j).
Proof.
  intros [-> | [-> | ->]] Hj.
  - destruct j as [|a [|b [|c r]]]; simpl in *; try reflexivity;
      apply negb_true_iff in Hj; rewrite Hj; reflexivity.
  - destruct j as [|a [|b r]]; simpl in *; try reflexivity;
      apply negb_true_iff in Hj; rewrite Hj; reflexivity.
  - destruct j as [|a r]; simpl in *; try reflexivity.
    apply negb_true_iff in Hj. rewrite Hj. reflexivity.
Qed.

Lemma Path_idempotent (p : string) : PyPath.Path (PyPath.Path p) = PyPath.Path p.
Proof.
  pose proof (parts_component p) as Hc.
  pose proof (splitroot_root p) as Hroot.
  assert (Hp : PyPath.Path p =
               if PyStr.truthy (fst (PyPath.splitroot p) +:+ PyStr.join "/" (PyPath.parts p))
               then fst (PyPath.splitroot p) +:+ PyStr.join "/" (PyPath.parts p)
               else ".") by reflexivity.
  set (root := fst (PyPath.splitroot p)) in *.
  set (ps := PyPath.parts p) in *.
  rewrite Hp.
  destruct (PyStr.truthy (root +:+ PyStr.join "/" ps)) eqn:Hs; [|reflexivity].
  unfold PyPath.Path, PyPath.parts.
  rewrite (splitroot_rebuilt root (PyStr.join "/" ps) Hroot (join_starts_clean ps Hc)).
  simpl fst. simpl snd.
  assert (Hparts : List.filter PyPath.keep_part
                     (PyStr.split_on PyPath.slash "" (PyStr.join "/" ps)) = ps).
  { destruct ps as [|x ps']; [reflexivity|].
    rewrite split_on_join by (apply components_no_slash; exact Hc).
    apply filter_components. exact Hc. }
  rewrite Hparts, Hs. reflexivity.
Qed.

Lemma on_disk_Path (w : world) (p : string) : on_disk w (PyPath.Path p) = on_disk w p.
Proof. unfold on_disk. rewrite Path_idempotent. reflexivity. Qed.

(** A file that is read is there, and reading leaves the world alone. *)
Lemma read_text_on_disk (E : env) (p content : string) (w w' : world) :
  read_text E p w = (Ok content, w') -> on_disk w p = true /\ w' = w.
Proof.
  unfold read_text, on_disk.
  destruct (files w !! PyPath.Path p) as [bytes|] eqn:Hp; [|discriminate].
  destruct (isdir E _); [discriminate|].
  destruct (decode E bytes); [|discriminate].
  intros [= _ <-]. split; [apply bool_decide_eq_true_2; eauto|reflexivity].
Qed.

(** ** Computations that send no request *)

Lemma requests_emit (e : event) (w : world) :
  is_request e = false -> requests (emit e w) = requests w.
Proof.
  intros He. unfold requests, emit. simpl.
  rewrite List.filter_app. simpl. rewrite He. apply app_nil_r.
Qed.

Lemma offline_ret {A} (a : A) : offline (ret a).
Proof. intros w. reflexivity. Qed.

Lemma offline_raise {A} (e : exn) : offline (@raise A e).
Proof. intros w. reflexivity. Qed.

Lemma offline_lift {A} (r : result A) : offline (lift r).
Proof. intros w. reflexivity. Qed.

Lemma offline_print (line : list piece) : offline (print line).
Proof. intros w. apply requests_emit. reflexivity. Qed.

Lemma offline_bind {A B} (m : M A) (k : A -> M B) :
  offline m -> (forall a, offline (k a)) -> offline (bind m k).
Proof.
  intros Hm Hk w. unfold bind. specialize (Hm w).
  destruct (m w) as [[a|e] w1]; simpl in *.
  - rewrite Hk. exact Hm.
  - exact Hm.
Qed.

Lemma offline_try_except {A} (body : M A) (handler : exn -> option (M A)) :
  offline body ->
  (forall e h, handler e = Some h -> offline h) ->
  offline (try_except body handler).
Proof.
  intros Hbody Hh w. unfold try_except. specialize (Hbody w).
  destruct (body w) as [[a|e] w1]; simpl in *; [exact Hbody|].
  destruct (handler e) as [h|] eqn:He; [|exact Hbody].
  rewrite (Hh e h He). exact Hbody.
Qed.

Lemma offline_subprocess_run (E : env) (capture : bool) (cmd : list json) :
  offline (subprocess_run E capture cmd).
Proof.
  intros w. unfold subprocess_run.
  destruct (as_args cmd) as [argv|]; [|apply requests_emit; reflexivity].
  destruct (spawn E argv (emit (ERun cmd) w)) as [e|rc out err fs];
    [apply requests_emit; reflexivity|].
  destruct (rc =? 0); simpl; apply (requests_emit (ERun cmd) w); reflexivity.
Qed.

Lemma offline_path_exists (p : string) : offline (path_exists p).
Proof. intros w. reflexivity. Qed.

Lemma offline_read_text (E : env) (p : string) : offline (read_text E p).
Proof.
  intros w. unfold read_text.
  destruct (files w !! PyPath.Path p); [|reflexivity].
  destruct (isdir E _); [reflexivity|]. destruct (decode E _); reflexivity.
Qed.

Lemma offline_os_remove (E : env) (p : string) : offline (os_remove E p).
Proof.
  intros w. unfold os_remove.
  destruct (files w !! PyPath.Path p); [|reflexivity].
  destruct (isdir E _); reflexivity.
Qed.

Create HintDb offline.
#[global] Hint Resolve offline_ret offline_raise offline_lift offline_print
  offline_subprocess_run offline_path_exists offline_read_text offline_os_remove
  : offline.

(** Recording and transcription talk to processes and files only. *)
Lemma offline_record_audio (E : env) (config : settings) :
  offline (record_audio E config).
Proof.
  unfold record_audio.
  apply offline_bind; [intros w; reflexivity|]. intros t.
  apply offline_try_except.
  - apply offline_bind; auto with offline.
  - intros e h. destruct (tool_failure e); [|discriminate]. intros [= <-].
    apply offline_try_except.
    + apply offline_bind; auto with offline.
    + intros e' h'. destruct (tool_failure e'); [|discriminate]. intros [= <-].
      repeat (apply offline_bind; [auto with offline|intros _]).
      auto with offline.
Qed.

Lemma offline_transcribe_audio (E : env) (audio_file : string) (config : settings) :
  offline (transcribe_audio E audio_file config).
Proof.
  unfold transcribe_audio.
  apply offline_bind; [auto with offline|]. intros exe.
  apply offline_bind; [auto with offline|]. intros found.
  destruct found; simpl; [|auto with offline].
  apply offline_bind; [auto with offline|]. intros cmd.
  apply offline_try_except.
  - apply offline_bind; [auto with offline|]. intros result.
    apply offline_bind; [auto with offline|]. intros found.
    destruct found; [|auto with offline].
    apply offline_bind; [auto with offline|]. intros transcript.
    apply offline_bind; auto with offline.
  - intros e h. destruct e; try discriminate. intros [= <-].
    repeat (apply offline_bind; [auto with offline|intros _]).
    auto with offline.
Qed.

(** ** The cycle: [run_assistant] *)

(** C1. When the transcript is made of whitespace only (the empty string
    included, and also a text such as three spaces), the cycle prints it,
    prints that no speech was detected and returns: the world after the
    cycle is the world after the transcription with these two lines added.
    This holds whatever the four stages are, [run_assistant] being the
    cycle over the stages of the modules: the generation and the synthesis
    are not called, so no request is sent and no process is started after
    the transcription. *)
Theorem run_assistant_skips_on_blank_transcript
    (record : settings -> M string)
    (transcribe : string -> settings -> M string)
    (process : string -> settings -> M json)
    (speak : json -> settings -> M unit)
    (config : configuration) (audio whisper : settings)
    (audio_file transcript : string) (w w1 w2 : world) :
  config !! "audio" = Some audio ->
  config !! "whisper" = Some whisper ->
  record audio
    (emit (EPrint [Lit (nl +:+ "Listening... (press Ctrl+C to stop)")]) w)
    = (Ok audio_file, w1) ->
  transcribe audio_file whisper (emit (EPrint [Lit "Transcribing..."]) w1)
    = (Ok transcript, w2) ->
  PyStr.all_space transcript = true ->
  let cycle := run_assistant_with record transcribe process speak config w in
  cycle =
    (Ok tt,
     {| files := files w2;
        log := log w2 ++ [ EPrint [Lit ("You said: " +:+ transcript)];
                           EPrint [Lit "No speech detected. Please try again."] ] |})
  /\ requests (snd cycle) = requests w2
  /\ processes (snd cycle) = processes w2.
Proof.
  intros Ha Hw Hrec Htr Hblank cycle.
  assert (Hrun : cycle =
                 (Ok tt,
                  emit (EPrint [Lit "No speech detected. Please try again."])
                       (emit (EPrint [Lit ("You said: " +:+ transcript)]) w2))).
  { unfold cycle. run run_assistant_with.
    rewrite Ha, Hrec, Hw, Htr, truthy_strip, Hblank. reflexivity. }
  rewrite Hrun. repeat split.
  - unfold emit. simpl. rewrite <- app_assoc. reflexivity.
  - simpl. rewrite !requests_emit by reflexivity. reflexivity.
  - simpl. unfold processes, emit. simpl.
    rewrite !List.filter_app. simpl. rewrite !app_nil_r. reflexivity.
Qed.

Lemma run_assistant_skips_on_blank_transcript_witness :
  run_assistant_with (record_audio (quiet_env "" None)) (fun _ _ => ret "   ")
                     (process_with_ollama (quiet_env "" None))
                     (text_to_speech (quiet_env "" None)) default_config installed =
    (Ok tt,
     {| files := files recorded;
        log := log recorded ++
               [ EPrint [Lit "Transcribing..."];
                 EPrint [Lit ("You said: " +:+ "   ")];
                 EPrint [Lit "No speech detected. Please try again."] ] |}).
Proof.
  destruct (run_assistant_skips_on_blank_transcript
              (record_audio (quiet_env "" None)) (fun _ _ => ret "   ")
              (process_with_ollama (quiet_env "" None))
              (text_to_speech (quiet_env "" None)) default_config
              (default_config !!! "audio") (default_config !!! "whisper")
              "/tmp/recording_1700000000.wav" "   " installed recorded
              (emit (EPrint [Lit "Transcribing..."]) recorded))
    as [Hrun _]; [vm_compute; reflexivity ..|].
  rewrite Hrun. reflexivity.
Defined.

(** ** Transcription: [transcribe_audio] *)

Lemma transcribe_audio_missing (E : env) (audio_file : string) (config : settings)
    (exe : string) (w : world) :
  config !! "executable" = Some (SStr exe) ->
  on_disk w exe = false ->
  transcribe_audio E audio_file config w =
    (Raise (FileNotFoundError (not_found_message (PyPath.Path exe))), w).
Proof.
  intros Hexe Hmiss.
  run transcribe_audio. unfold path_exists.
  rewrite Hexe. simpl. rewrite on_disk_Path, Hmiss. reflexivity.
Qed.

(** The command line of the recognizer is made of strings. *)
Lemma as_args_strings (l : list string) :
  as_args (map (fun a : string => JScalar a) l) = Some l.
Proof.
  unfold as_args. induction l as [|a l IH]; [reflexivity|].
  simpl. simpl in IH. rewrite IH. reflexivity.
Qed.

Lemma whisper_cmd_args (exe audio_file : string) (config : settings) (cmd : list json) :
  whisper_cmd exe audio_file config = Ok cmd ->
  exists argv, cmd = map (fun a : string => JScalar a) argv.
Proof.
  unfold whisper_cmd, and_then, getitem.
  destruct (config !! "model") as [m|]; [|discriminate].
  destruct (config !! "params") as [p|].
  - destruct p as [| | | |ps]; simpl; try discriminate.
    intros [= <-].
    exists ([exe; "-f"; audio_file; "-m";
             "./whisper.cpp/models/ggml-" +:+ py_str m +:+ ".bin"; "-otxt"]
            ++ PyStr.split ps)%list.
    rewrite map_app. reflexivity.
  - intros [= <-]. eexists [_; _; _; _; _; _]. reflexivity.
Qed.

(** So a command line that is built is always accepted by
    [subprocess.run]. *)
Lemma whisper_cmd_as_args (exe audio_file : string) (config : settings) (cmd : list json) :
  whisper_cmd exe audio_file config = Ok cmd ->
  exists argv, as_args cmd = Some argv.
Proof.
  intros Hcmd. destruct (whisper_cmd_args _ _ _ _ Hcmd) as [argv ->].
  exists argv. apply as_args_strings.
Qed.


(** C5. When the configured executable is not on the disk,
    [transcribe_audio] raises [FileNotFoundError] and leaves the world as it
    was, so nothing has been started; inside the cycle nothing catches the
    error: [run_assistant] ends with the same exception, right after the
    line that announces the transcription. *)
Theorem missing_executable_propagates
    (E : env) (config : configuration) (audio whisper : settings)
    (exe audio_file : string) (w w1 : world) :
  config !! "audio" = Some audio ->
  config !! "whisper" = Some whisper ->
  whisper !! "executable" = Some (SStr exe) ->
  record_audio E audio
    (emit (EPrint [Lit (nl +:+ "Listening... (press Ctrl+C to stop)")]) w)
    = (Ok audio_file, w1) ->
  on_disk w1 exe = false ->
  let err := FileNotFoundError (not_found_message (PyPath.Path exe)) in
  (forall a w', on_disk w' exe = false ->
                transcribe_audio E a whisper w' = (Raise err, w')) /\
  run_assistant E config w = (Raise err, emit (EPrint [Lit "Transcribing..."]) w1).
Proof.
  intros Ha Hw Hexe Hrec Hmiss err. split.
  - intros a w' Hw'. apply transcribe_audio_missing; assumption.
  - unfold run_assistant; run run_assistant_with.
    rewrite Ha, Hrec, Hw.
    rewrite (transcribe_audio_missing E audio_file whisper exe) by assumption.
    reflexivity.
Qed.

Lemma missing_executable_propagates_witness :
  let err := FileNotFoundError
               "Whisper executable not found at whisper.cpp/main. Please install whisper.cpp and update the config." in
  (forall a w', on_disk w' "./whisper.cpp/main" = false ->
                transcribe_audio (quiet_env "" None) a (default_config !!! "whisper") w'
                = (Raise err, w')) /\
  run_assistant (quiet_env "" None) default_config bare =
    (Raise err,
     emit (EPrint [Lit "Transcribing..."])
          {| files := ∅; log := log recorded |}).
Proof.
  apply (missing_executable_propagates
           (quiet_env "" None) default_config
           (default_config !!! "audio") (default_config !!! "whisper")
           "./whisper.cpp/main" "/tmp/recording_1700000000.wav" bare
           {| files := ∅; log := log recorded |});
    vm_compute; reflexivity.
Defined.



(** C2, where the code misses it.  The recording is in a directory whose
    name contains the extension of the recording.  The recognizer writes
    the transcript next to the recording, in [clip.txt]; [transcribe_audio]
    replaces every [.wav] in the path, looks at another path, returns the
    empty standard output and leaves the transcript file behind. *)
Theorem transcript_file_missed_under_dotted_directory :
  let audio_file := "/data/a.wav.d/clip.wav" in
  let sibling := "/data/a.wav.d/clip.txt" in
  PyPath.with_suffix audio_file ".txt" = sibling /\
  output_file audio_file = "/data/a.txt.d/clip.txt" /\
  exists w',
    transcribe_audio (writing_env sibling " hello world") audio_file
      (default_config !!! "whisper") installed = (Ok "", w') /\
    files w' !! sibling = Some " hello world".
Proof.
  intros audio_file sibling.
  split; [reflexivity|]. split; [reflexivity|].
  eexists. split; vm_compute; reflexivity.
Qed.

(** A recording without extension: the empty suffix is replaced, that is,
    [.txt] is inserted around every character. *)
Example output_file_without_suffix :
  output_file "memo" = ".txtm.txte.txtm.txto.txt" /\
  PyPath.with_suffix "memo" ".txt" = "memo.txt".
Proof. split; reflexivity. Qed.

(** The paths [record_audio] makes in [/tmp] are handled as expected. *)
Example output_file_of_recording :
  output_file "/tmp/recording_1700000000.wav" = "/tmp/recording_1700000000.txt" /\
  PyPath.with_suffix "/tmp/recording_1700000000.wav" ".txt" = "/tmp/recording_1700000000.txt".
Proof. split; reflexivity. Qed.

(** ** Generation: [process_with_ollama] *)

(** The check before the request, when the server answers 200. *)
Lemma check_running_ok (E : env) (w : world) (r : response) :
  http_get E tags_url (emit (EGet tags_url) w) = Responded r ->
  status_code r = 200 ->
  check_running E w = (Ok None, emit (EGet tags_url) w).
Proof.
  intros Hget H200.
  unfold check_running, try_except, bind, requests_get.
  rewrite Hget, H200. reflexivity.
Qed.

(** C3. When the request to the listing endpoint fails to connect, or is
    answered with a status other than 200, [process_with_ollama] returns
    the fixed apology; the world then holds that one request and one
    printed line: no generation request was sent, and nothing is raised. *)
Theorem unreachable_server_gives_apology
    (E : env) (text : string) (config : settings) (w : world) :
  is_Some (config !! "model") ->
  http_get E tags_url (emit (EGet tags_url) w) = RequestFailed ConnectionError
  \/ (exists r, http_get E tags_url (emit (EGet tags_url) w) = Responded r
                /\ status_code r <> 200) ->
  exists advice,
    (advice = "Ollama server not running. Please start ollama service."
     \/ advice = "Ollama server not responding. Make sure it's running.") /\
    process_with_ollama E text config w =
      (Ok (JScalar (SStr "Sorry, I'm having trouble connecting to my thinking module.")),
       emit (EPrint [Lit advice]) (emit (EGet "http://localhost:11434/api/tags") w)).
Proof.
  intros [m Hm] Hdown.
  run process_with_ollama. rewrite Hm.
  unfold check_running, try_except, bind, requests_get.
  destruct Hdown as [Hfail | (r & Hr & Hstatus)].
  - rewrite Hfail. eexists. split; [left; reflexivity | reflexivity].
  - rewrite Hr. apply Z.eqb_neq in Hstatus. rewrite Hstatus.
    eexists. split; [right; reflexivity | reflexivity].
Qed.

Lemma unreachable_server_gives_apology_witness :
  exists advice,
    (advice = "Ollama server not running. Please start ollama service."
     \/ advice = "Ollama server not responding. Make sure it's running.") /\
    process_with_ollama offline_env "what time is it" (default_config !!! "ollama") installed =
      (Ok (JScalar (SStr "Sorry, I'm having trouble connecting to my thinking module.")),
       emit (EPrint [Lit advice]) (emit (EGet "http://localhost:11434/api/tags") installed)).
Proof.
  apply (unreachable_server_gives_apology offline_env "what time is it"
           (default_config !!! "ollama") installed).
  - vm_compute. eexists. reflexivity.
  - left. reflexivity.
Defined.

(** The handler of the check is for [ConnectionError] only: another failure
    of the request leaves [process_with_ollama] as an exception. *)
Example broken_listing_reply_propagates :
  process_with_ollama (http_env (RequestFailed RequestException)
                                (RequestFailed RequestException))
    "what time is it" (default_config !!! "ollama") installed
  = (Raise RequestException, emit (EGet tags_url) installed).
Proof. reflexivity. Qed.

(** The model is read before the check.  [main] prints it before the first
    cycle, so the settings that reach [process_with_ollama] from there have
    the key. *)
Example process_with_ollama_without_model :
  process_with_ollama offline_env "what time is it" ∅ installed
  = (Raise (KeyError "model"), installed).
Proof. reflexivity. Qed.

(** A failure of the generation request, or a body that is not an object,
    gives the other apology. *)
Example generation_failure_gives_apology :
  fst (process_with_ollama
         (http_env (Responded (Response 200 "{}" (Some (JObj ∅))))
                   (RequestFailed ConnectionError))
         "what time is it" (default_config !!! "ollama") installed)
  = Ok (JScalar (SStr error_apology)) /\
  fst (process_with_ollama
         (http_env (Responded (Response 200 "{}" (Some (JObj ∅))))
                   (Responded (Response 200 "[]" (Some (JArr [])))))
         "what time is it" (default_config !!! "ollama") installed)
  = Ok (JScalar (SStr error_apology)).
Proof. split; reflexivity. Qed.

(** What [process_with_ollama] returns for a reply with status 200 whose
    body is a JSON object. *)
Lemma process_with_ollama_reply
    (E : env) (text : string) (config : settings) (model : scalar) (w : world)
    (r1 r2 : response) (obj : gmap string json) :
  config !! "model" = Some model ->
  http_get E tags_url (emit (EGet tags_url) w) = Responded r1 ->
  status_code r1 = 200 ->
  let request :=
    payload model text (get config "system_prompt" (SStr "You are a helpful assistant.")) in
  let w' := emit (EPost generate_url request) (emit (EGet tags_url) w) in
  http_post E generate_url request w' = Responded r2 ->
  status_code r2 = 200 ->
  body r2 = Some (JObj obj) ->
  process_with_ollama E text config w =
    (Ok (default (JScalar (SStr "")) (obj !! "response")), w').
Proof.
  intros Hm Hget H1 request w' Hpost H2 Hbody.
  run process_with_ollama. rewrite Hm.
  rewrite (check_running_ok E w r1) by assumption.
  unfold try_except, bind, requests_post, lift, response_json.
  fold request. fold w'. rewrite Hpost, H2, Hbody. reflexivity.
Qed.

(** C8. With the server running, a reply with status 200 and the body
    [{"response": "hello"}] makes [process_with_ollama] return the string
    [hello] as it is. *)
Theorem reply_hello_is_returned
    (E : env) (text : string) (config : settings) (model : scalar) (w : world)
    (r1 r2 : response) :
  config !! "model" = Some model ->
  http_get E tags_url (emit (EGet tags_url) w) = Responded r1 ->
  status_code r1 = 200 ->
  let request :=
    payload model text (get config "system_prompt" (SStr "You are a helpful assistant.")) in
  let w' := emit (EPost generate_url request) (emit (EGet tags_url) w) in
  http_post E generate_url request w' = Responded r2 ->
  status_code r2 = 200 ->
  body r2 = Some (JObj {[ "response" := JScalar (SStr "hello") ]}) ->
  process_with_ollama E text config w = (Ok (JScalar (SStr "hello")), w').
Proof.
  intros Hm Hget H1 request w' Hpost H2 Hbody.
  rewrite (process_with_ollama_reply E text config model w r1 r2
             {[ "response" := JScalar (SStr "hello") ]}) by assumption.
  reflexivity.
Qed.

Lemma reply_hello_is_returned_witness :
  fst (process_with_ollama
         (quiet_env "" (Some (JObj {[ "response" := JScalar (SStr "hello") ]})))
         "what time is it" (default_config !!! "ollama") installed)
  = Ok (JScalar (SStr "hello")).
Proof.
  rewrite (reply_hello_is_returned
             (quiet_env "" (Some (JObj {[ "response" := JScalar (SStr "hello") ]})))
             "what time is it" (default_config !!! "ollama") (SStr "llama3") installed
             (Response 200 "{}" (Some (JObj ∅)))
             (Response 200 "" (Some (JObj {[ "response" := JScalar (SStr "hello") ]}))));
    reflexivity.
Defined.

(** C10. With the server running, a reply with status 200 whose body is a
    JSON object without the field [response] makes [process_with_ollama]
    return the empty string: neither an apology nor an exception. *)
Theorem reply_without_response_gives_empty
    (E : env) (text : string) (config : settings) (model : scalar) (w : world)
    (r1 r2 : response) (obj : gmap string json) :
  config !! "model" = Some model ->
  http_get E tags_url (emit (EGet tags_url) w) = Responded r1 ->
  status_code r1 = 200 ->
  let request :=
    payload model text (get config "system_prompt" (SStr "You are a helpful assistant.")) in
  let w' := emit (EPost generate_url request) (emit (EGet tags_url) w) in
  http_post E generate_url request w' = Responded r2 ->
  status_code r2 = 200 ->
  body r2 = Some (JObj obj) ->
  obj !! "response" = None ->
  process_with_ollama E text config w = (Ok (JScalar (SStr "")), w').
Proof.
  intros Hm Hget H1 request w' Hpost H2 Hbody Hnone.
  rewrite (process_with_ollama_reply E text config model w r1 r2 obj) by assumption.
  rewrite Hnone. reflexivity.
Qed.

Lemma reply_without_response_gives_empty_witness :
  fst (process_with_ollama
         (quiet_env "" (Some (JObj {[ "done" := JScalar (SBool true) ]})))
         "what time is it" (default_config !!! "ollama") installed)
  = Ok (JScalar (SStr "")).
Proof.
  rewrite (reply_without_response_gives_empty
             (quiet_env "" (Some (JObj {[ "done" := JScalar (SBool true) ]})))
             "what time is it" (default_config !!! "ollama") (SStr "llama3") installed
             (Response 200 "{}" (Some (JObj ∅)))
             (Response 200 "" (Some (JObj {[ "done" := JScalar (SBool true) ]})))
             {[ "done" := JScalar (SBool true) ]});
    reflexivity.
Defined.

(** ** Synthesis: [text_to_speech] *)

Lemma eq_str_false (v : scalar) (s : string) : v <> SStr s -> eq_str v s = false.
Proof.
  intros Hne. destruct v as [| | | |s']; try reflexivity.
  simpl. apply String.eqb_neq. congruence.
Qed.

(** C9. For a configured engine other than [piper] and [espeak],
    [text_to_speech] prints the two lines about the unsupported engine and
    returns: the log gains these two lines only, so no process is started,
    and the files are the same. *)
Theorem unsupported_engine_only_prints
    (E : env) (text : json) (config : settings) (engine : scalar) (w : world) :
  config !! "engine" = Some engine ->
  engine <> SStr "piper" ->
  engine <> SStr "espeak" ->
  text_to_speech E text config w =
    (Ok tt,
     {| files := files w;
        log := log w ++ [ EPrint [Lit ("Unsupported TTS engine: " +:+ py_str engine)];
                          EPrint [Lit "Supported engines: piper, espeak"] ] |}).
Proof.
  intros Hengine Hpiper Hespeak.
  unfold text_to_speech, get. rewrite Hengine. simpl.
  rewrite (eq_str_false _ _ Hpiper), (eq_str_false _ _ Hespeak).
  unfold bind, print, emit. simpl. rewrite <- app_assoc. reflexivity.
Qed.

Lemma unsupported_engine_only_prints_witness :
  text_to_speech (quiet_env "" None) (JScalar (SStr "hello"))
    {[ "engine" := SStr "festival" ]} installed =
    (Ok tt,
     {| files := files installed;
        log := log installed ++
               [ EPrint [Lit ("Unsupported TTS engine: " +:+ py_str (SStr "festival"))];
                 EPrint [Lit "Supported engines: piper, espeak"] ] |}).
Proof.
  apply (unsupported_engine_only_prints (quiet_env "" None) (JScalar (SStr "hello"))
           {[ "engine" := SStr "festival" ]} (SStr "festival") installed).
  - reflexivity.
  - discriminate.
  - discriminate.
Defined.

(** ** The command line: [override_config] *)

Lemma override_Some (v sec key : string) (config : configuration) (s : settings) :
  v <> "" -> config !! sec = Some s ->
  override (Some v) sec key config = Ok (<[sec := <[key := SStr v]> s]> config).
Proof.
  intros Hv Hs. unfold override, setitem2, and_then, getitem.
  destruct v; [congruence|]. simpl. rewrite Hs. reflexivity.
Qed.

Lemma override_skip (flag : option string) (sec key : string) (config : configuration) :
  flag = None \/ flag = Some "" -> override flag sec key config = Ok config.
Proof. intros [-> | ->]; reflexivity. Qed.

(** One flag: the section stays, the setting is the flag's value when the
    flag is given and not empty, and every other setting is untouched. *)
Lemma override_spec (flag : option string) (sec key : string) (config : configuration) :
  is_Some (config !! sec) ->
  exists config',
    override flag sec key config = Ok config' /\
    dom config' = dom config /\
    (forall v, flag = Some v -> v <> "" -> lookup2 config' sec key = Some (SStr v)) /\
    (flag = None \/ flag = Some "" -> config' = config) /\
    (forall sec' key', (sec', key') <> (sec, key) ->
                       lookup2 config' sec' key' = lookup2 config sec' key').
Proof.
  intros [s Hs].
  destruct flag as [v|]; [destruct (decide (v = "")) as [->|Hv]|].
  - exists config. repeat split; auto; intros v [= <-]; congruence.
  - exists (<[sec := <[key := SStr v]> s]> config).
    split; [apply override_Some; assumption|].
    split; [|split; [|split]].
    + apply dom_insert_lookup_L. eauto.
    + intros v' [= <-] _. unfold lookup2.
      rewrite lookup_insert_eq. simpl. apply lookup_insert_eq.
    + intros [H | H]; [discriminate H | congruence].
    + intros sec' key' Hne. unfold lookup2.
      destruct (decide (sec' = sec)) as [->|Hsec].
      * rewrite lookup_insert_eq, Hs. simpl.
        apply lookup_insert_ne. congruence.
      * rewrite lookup_insert_ne by congruence. reflexivity.
  - exists config. repeat split; auto; discriminate.
Qed.

(** C4, as the code has it.  For a configuration that has the three
    sections, the overrides succeed; a flag that is given with a non-empty
    value replaces its setting, a flag that is absent or empty leaves its
    setting as it was, the sections are the same, and every setting other
    than the three is unchanged. *)
Theorem overrides_replace_only_their_settings (a : args) (config : configuration) :
  is_Some (config !! "ollama") ->
  is_Some (config !! "whisper") ->
  is_Some (config !! "tts") ->
  exists config',
    override_config a config = Ok config' /\
    (forall v, model a = Some v -> v <> "" ->
               lookup2 config' "ollama" "model" = Some (SStr v)) /\
    (forall v, whisper_model a = Some v -> v <> "" ->
               lookup2 config' "whisper" "model" = Some (SStr v)) /\
    (forall v, tts_engine a = Some v -> v <> "" ->
               lookup2 config' "tts" "engine" = Some (SStr v)) /\
    (model a = None \/ model a = Some "" ->
     lookup2 config' "ollama" "model" = lookup2 config "ollama" "model") /\
    (whisper_model a = None \/ whisper_model a = Some "" ->
     lookup2 config' "whisper" "model" = lookup2 config "whisper" "model") /\
    (tts_engine a = None \/ tts_engine a = Some "" ->
     lookup2 config' "tts" "engine" = lookup2 config "tts" "engine") /\
    dom config' = dom config /\
    (forall sec key, (sec, key) ∉ overridable ->
                     lookup2 config' sec key = lookup2 config sec key).
Proof.
  intros Ho Hw Ht.
  destruct (override_spec (model a) "ollama" "model" config Ho)
    as (c1 & E1 & D1 & S1 & U1 & F1).
  assert (Hw1 : is_Some (c1 !! "whisper"))
    by (apply elem_of_dom; rewrite D1; apply elem_of_dom; exact Hw).
  destruct (override_spec (whisper_model a) "whisper" "model" c1 Hw1)
    as (c2 & E2 & D2 & S2 & U2 & F2).
  assert (Ht2 : is_Some (c2 !! "tts"))
    by (apply elem_of_dom; rewrite D2, D1; apply elem_of_dom; exact Ht).
  destruct (override_spec (tts_engine a) "tts" "engine" c2 Ht2)
    as (c3 & E3 & D3 & S3 & U3 & F3).
  exists c3. unfold override_config. rewrite E1. simpl. rewrite E2. simpl.
  split; [exact E3|].
  repeat split.
  - intros v Hv Hne. rewrite F3, F2 by congruence. exact (S1 v Hv Hne).
  - intros v Hv Hne. rewrite F3 by congruence. exact (S2 v Hv Hne).
  - exact S3.
  - intros H. rewrite F3, F2 by congruence. rewrite (U1 H). reflexivity.
  - intros H. rewrite F3 by congruence. rewrite (U2 H).
    apply F1. congruence.
  - intros H. rewrite (U3 H). rewrite F2, F1 by congruence. reflexivity.
  - rewrite D3, D2, D1. reflexivity.
  - intros sec key Hnot. unfold overridable in Hnot.
    rewrite !not_elem_of_cons in Hnot. destruct Hnot as (N1 & N2 & N3 & _).
    rewrite F3, F2, F1 by assumption. reflexivity.
Qed.

Lemma overrides_replace_only_their_settings_witness :
  exists config',
    override_config (Args "config.json" (Some "mistral") None (Some "espeak") false)
                    default_config = Ok config' /\
    lookup2 config' "ollama" "model" = Some (SStr "mistral") /\
    lookup2 config' "whisper" "model" = Some (SStr "base.en") /\
    lookup2 config' "tts" "engine" = Some (SStr "espeak") /\
    lookup2 config' "tts" "voice" = Some (SStr "en_US-amy-medium") /\
    dom config' = dom default_config.
Proof.
  destruct (overrides_replace_only_their_settings
              (Args "config.json" (Some "mistral") None (Some "espeak") false)
              default_config)
    as (config' & Hrun & Hm & _ & Ht & _ & Hw & _ & Hdom & Hrest);
    [vm_compute; eauto ..|].
  exists config'. split; [exact Hrun|].
  split; [apply Hm; [reflexivity | discriminate]|].
  split; [rewrite Hw by (left; reflexivity); reflexivity|].
  split; [apply Ht; [reflexivity | discriminate]|].
  split; [|exact Hdom].
  rewrite Hrest; [reflexivity|].
  unfold overridable. rewrite !not_elem_of_cons.
  repeat split; try discriminate. apply not_elem_of_nil.
Defined.

(** C4 as it is stated fails for a flag that is given with an empty value:
    [--model ""] is a provided flag, and the model stays [llama3]. *)
Lemma empty_model_flag_is_ignored :
  let a := Args "config.json" (Some "") None None false in
  model a = Some "" /\
  exists config',
    override_config a default_config = Ok config' /\
    lookup2 config' "ollama" "model" = Some (SStr "llama3") /\
    lookup2 config' "ollama" "model" <> Some (SStr "").
Proof.
  split; [reflexivity|].
  exists default_config. split; [reflexivity|]. split; [reflexivity|discriminate].
Qed.

(** Without the section, the override raises [KeyError]. *)
Example override_without_section :
  override_config (Args "config.json" (Some "mistral") None None false) ∅
  = Raise (KeyError "ollama").
Proof. reflexivity. Qed.

(** ** Recording: [record_audio] *)

(** Every call of [subprocess.run] is logged, whatever its outcome. *)
Lemma subprocess_run_log (E : env) (capture : bool) (cmd : list json) (w : world) :
  log (snd (subprocess_run E capture cmd w)) = log w ++ [ERun cmd].
Proof.
  unfold subprocess_run.
  destruct (as_args cmd) as [argv|]; [|reflexivity].
  destruct (spawn E argv (emit (ERun cmd) w)) as [e|rc out err fs]; [reflexivity|].
  destruct (rc =? 0); reflexivity.
Qed.

(** C6. [record_audio] starts with [arecord].  [rec] is run exactly when
    that call ends with [FileNotFoundError] or [CalledProcessError]; its
    command line carries the same rate, channel count and duration and
    writes to the same file, which is the path returned when either tool
    succeeds.  When [rec] ends with one of these two errors as well, three
    lines are printed and the error of [rec] is raised again. *)
Theorem record_audio_falls_back (E : env) (config : settings) (w : world) :
  let duration := get config "duration" (SInt 5) in
  let sample_rate := get config "sample_rate" (SInt 16000) in
  let device := get config "device" (SStr "default") in
  let output_file :=
    PyPath.join (gettempdir E) ("recording_" +:+ pretty (time E w) +:+ ".wav") in
  let primary : list json :=
    [ JScalar "arecord"; JScalar "-D"; JScalar device; JScalar "-f"; JScalar "S16_LE";
      JScalar "-c"; JScalar "1"; JScalar "-r"; JScalar (py_str sample_rate);
      JScalar "-d"; JScalar (py_str duration); JScalar output_file ] in
  let secondary : list json :=
    [ JScalar "rec"; JScalar "-q"; JScalar output_file;
      JScalar "rate"; JScalar (py_str sample_rate);
      JScalar "channels"; JScalar "1";
      JScalar "trim"; JScalar "0"; JScalar (py_str duration) ] in
  let first := subprocess_run E false primary w in
  let second := subprocess_run E false secondary (snd first) in
  let primary_failed := exists e, fst first = Raise e /\ tool_failure e = true in
  exists rest,
    log (snd (record_audio E config w)) = log w ++ ERun primary :: rest /\
    (ERun secondary ∈ rest <-> primary_failed) /\
    (forall c, fst first = Ok c ->
               record_audio E config w = (Ok output_file, snd first)) /\
    (primary_failed ->
     (forall c, fst second = Ok c ->
                record_audio E config w = (Ok output_file, snd second)) /\
     (forall e, fst second = Raise e -> tool_failure e = true ->
                record_audio E config w =
                  (Raise e,
                   {| files := files (snd second);
                      log := log (snd second) ++
                        [ EPrint [Lit "Error recording audio: "; FmtExn e];
                          EPrint [Lit "Make sure you have either ALSA tools (arecord) or SoX (rec) installed."];
                          EPrint [Lit "Install with: sudo apt-get install alsa-utils or sudo apt-get install sox"] ] |}))).
Proof.
  intros duration sample_rate device output_file primary secondary
         first second primary_failed.
  assert (Hlog1 : log (snd first) = log w ++ [ERun primary])
    by apply subprocess_run_log.
  assert (Hlog2 : log (snd second) = (log w ++ [ERun primary]) ++ [ERun secondary])
    by (unfold second; rewrite subprocess_run_log, Hlog1; reflexivity).
  unfold record_audio, bind, now, try_except, ret, arecord_cmd, rec_cmd.
  fold duration sample_rate device. fold output_file. fold primary secondary.
  fold first. subst primary_failed.
  destruct first as [[c1|e1] w1] eqn:H1; simpl in *.
  - exists []. split; [rewrite Hlog1; reflexivity|].
    split; [|split].
    + split; [intros Hin; inversion Hin | intros (e & [=] & _)].
    + reflexivity.
    + intros (e & [=] & _).
  - destruct (tool_failure e1) eqn:Ht1.
    + fold second. destruct second as [[c2|e2] w2] eqn:H2; simpl in *.
      * exists [ERun secondary].
        split; [rewrite Hlog2, <- app_assoc; reflexivity|].
        split; [|split].
        -- split; [eauto | intros _; apply list_elem_of_here].
        -- discriminate.
        -- intros _. split; [reflexivity | discriminate].
      * destruct (tool_failure e2) eqn:Ht2.
        -- eexists (ERun secondary :: [_; _; _]).
           unfold print, raise, emit. simpl.
           split; [rewrite Hlog2, <- !app_assoc; reflexivity|].
           split; [|split].
           ++ split; [eauto | intros _; apply list_elem_of_here].
           ++ discriminate.
           ++ intros _. split; [discriminate|].
              intros e [= <-] _. rewrite <- !app_assoc. reflexivity.
        -- exists [ERun secondary]. simpl.
           split; [rewrite Hlog2, <- app_assoc; reflexivity|].
           split; [|split].
           ++ split; [eauto | intros _; apply list_elem_of_here].
           ++ discriminate.
           ++ intros _. split; [discriminate|].
              intros e [= <-] He. congruence.
    + exists []. simpl. split; [rewrite Hlog1; reflexivity|].
      split; [|split].
      * split; [intros Hin; inversion Hin | intros (e & [= <-] & He); congruence].
      * discriminate.
      * intros (e & [= <-] & He). congruence.
Qed.

(** Neither tool is installed: both are tried, the guidance is printed and
    the error of [rec] reaches the caller. *)
Example record_audio_without_tools :
  record_audio bare_env (default_config !!! "audio") bare =
    (Raise (FileNotFoundError "rec"),
     {| files := ∅;
        log := [ ERun (arecord_cmd "default" (SInt 16000) (SInt 5)
                                   "/tmp/recording_1700000000.wav");
                 ERun (rec_cmd (SInt 16000) (SInt 5) "/tmp/recording_1700000000.wav");
                 EPrint [Lit "Error recording audio: "; FmtExn (FileNotFoundError "rec")];
                 EPrint [Lit "Make sure you have either ALSA tools (arecord) or SoX (rec) installed."];
                 EPrint [Lit "Install with: sudo apt-get install alsa-utils or sudo apt-get install sox"] ] |}).
Proof. vm_compute. reflexivity. Qed.

(** Another failure of [arecord] is not a reason to try [rec]. *)
Example record_audio_interrupted :
  record_audio interrupted_env (default_config !!! "audio") bare =
    (Raise KeyboardInterrupt,
     {| files := ∅;
        log := [ ERun (arecord_cmd "default" (SInt 16000) (SInt 5)
                                   "/tmp/recording_1700000000.wav") ] |}).
Proof. vm_compute. reflexivity. Qed.

(** A device that is not a string stops [subprocess.run] before anything
    is started; [rec] is not tried. *)
Example record_audio_bad_device :
  fst (record_audio (quiet_env "" None) {[ "device" := SInt 1 ]} bare) = Raise TypeError.
Proof. vm_compute. reflexivity. Qed.

(** ** The caller of the cycle: [main] *)

(** An error of the first cycle ends the loop of the continuous mode. *)
Lemma while_true_raises (E : env) (body : M unit) (n : nat) (w w' : world) (e : exn) :
  body w = (Raise e, w') ->
  while_true (S n) body w = (Raise e, w').
Proof. intros Hbody. simpl. unfold bind. rewrite Hbody. reflexivity. Qed.

(** [main] up to the cycle: with the configuration file on the disk and
    readable as [loaded], and the three settings it prints present after
    the overrides, [main] prints them and enters the cycle. *)
Lemma main_reaches_cycle (E : env) (a : args) (fuel : nat) (w : world)
    (content : string) (loaded cfg : configuration) (wm om te : scalar) :
  read_text E (config a) w = (Ok content, w) ->
  json_loads E content = Some loaded ->
  override_config a loaded = Ok cfg ->
  getitem2 cfg "whisper" "model" = Ok wm ->
  getitem2 cfg "ollama" "model" = Ok om ->
  getitem2 cfg "tts" "engine" = Ok te ->
  let w1 :=
    {| files := files w;
       log := log w ++ [ EPrint [Lit ("Using whisper model: " +:+ py_str wm)];
                         EPrint [Lit ("Using ollama model: " +:+ py_str om)];
                         EPrint [Lit ("Using TTS engine: " +:+ py_str te)] ] |} in
  main E a fuel w =
    if continuous a then
      match while_true fuel (run_assistant E cfg)
              (emit (EPrint [Lit "Running in continuous mode. Press Ctrl+C to exit."]) w1) with
      | (Raise KeyboardInterrupt, w') =>
          (Ok (Some tt), emit (EPrint [Lit (nl +:+ "Exiting voice assistant.")]) w')
      | other => other
      end
    else
      match run_assistant E cfg w1 with
      | (Ok _, w') => (Ok (Some tt), w')
      | (Raise e, w') => (Raise e, w')
      end.
Proof.
  intros Hfile Hload Hover Hwm Hom Hte w1.
  destruct (read_text_on_disk _ _ _ _ _ Hfile) as [Hthere _].
  unfold main, bind, path_exists, lift, print, ret.
  rewrite Hthere. cbn [negb]. rewrite Hfile, Hload, Hover, Hwm, Hom, Hte.
  assert (Hw1 : emit (EPrint [Lit ("Using TTS engine: " +:+ py_str te)])
                  (emit (EPrint [Lit ("Using ollama model: " +:+ py_str om)])
                     (emit (EPrint [Lit ("Using whisper model: " +:+ py_str wm)]) w)) = w1).
  { unfold w1, emit. simpl. rewrite <- !app_assoc. reflexivity. }
  rewrite Hw1.
  destruct (continuous a).
  - unfold try_except.
    destruct (while_true fuel (run_assistant E cfg) _) as [[r|e] w'];
      [reflexivity|]. destruct e; reflexivity.
  - destruct (run_assistant E cfg w1) as [[[]|e] w']; reflexivity.
Qed.

(** In the one-shot mode, and in the continuous mode with at least one
    cycle, a missing executable ends [main] with the error: the only
    handler of [main] is for [KeyboardInterrupt]. *)
Example main_without_whisper :
  fst (main (quiet_env "" None) (Args "config.json" None None None false) 0
            {| files := {[ "config.json" := "{}" ]}; log := [] |})
  = Raise (FileNotFoundError (not_found_message "whisper.cpp/main")) /\
  fst (main (quiet_env "" None) (Args "config.json" None None None true) 3
            {| files := {[ "config.json" := "{}" ]}; log := [] |})
  = Raise (FileNotFoundError (not_found_message "whisper.cpp/main")).
Proof. split; vm_compute; reflexivity. Qed.

(** Ctrl+C during a recording ends the continuous mode normally. *)
Example main_interrupted :
  fst (main interrupted_env (Args "config.json" None None None true) 3
            {| files := {[ "config.json" := "{}" ]}; log := [] |})
  = Ok (Some tt).
Proof. vm_compute. reflexivity. Qed.

(** A configuration without the model of ollama does not reach the cycle:
    [main] stops at the line that prints it, before anything is recorded. *)
Example main_requires_model :
  main (loading_env (<["ollama" := ∅]> default_config))
       (Args "config.json" None None None false) 0
       {| files := {[ "config.json" := "{}" ]}; log := [] |}
  = (Raise (KeyError "model"),
     {| files := {[ "config.json" := "{}" ]};
        log := [ EPrint [Lit "Using whisper model: base.en"] ] |}).
Proof. vm_compute. reflexivity. Qed.

(** * Further properties *)

(** ** What the combinators keep *)

Section Preserves.

Context {S : Type} (obs : world -> S).

Lemma preserves_ret {A} (a : A) : preserves obs (ret a).
Proof. intros w. reflexivity. Qed.

Lemma preserves_raise {A} (e : exn) : preserves obs (@raise A e).
Proof. intros w. reflexivity. Qed.

Lemma preserves_lift {A} (r : result A) : preserves obs (lift r).
Proof. intros w. reflexivity. Qed.

Lemma preserves_bind {A B} (m : M A) (k : A -> M B) :
  preserves obs m -> (forall a, preserves obs (k a)) -> preserves obs (bind m k).
Proof.
  intros Hm Hk w. unfold bind. specialize (Hm w).
  destruct (m w) as [[a|e] w1]; simpl in *; [rewrite Hk|]; exact Hm.
Qed.

Lemma preserves_try_except {A} (body : M A) (handler : exn -> option (M A)) :
  preserves obs body ->
  (forall e h, handler e = Some h -> preserves obs h) ->
  preserves obs (try_except body handler).
Proof.
  intros Hbody Hh w. unfold try_except. specialize (Hbody w).
  destruct (body w) as [[a|e] w1]; simpl in *; [exact Hbody|].
  destruct (handler e) as [h|] eqn:He; [|exact Hbody].
  rewrite (Hh e h He). exact Hbody.
Qed.

Lemma preserves_try_finally {A} (body : M A) (final : M unit) :
  preserves obs body -> preserves obs final -> preserves obs (try_finally body final).
Proof.
  intros Hbody Hfinal w. unfold try_finally.
  specialize (Hbody w). destruct (body w) as [r w1]. simpl in Hbody.
  specialize (Hfinal w1). destruct (final w1) as [[u|e] w2]; simpl in *; congruence.
Qed.

End Preserves.

(** ** What the handlers stop *)

Section Never.

Context (P : exn -> bool).

Lemma never_ret {A} (a : A) : never P (ret a).
Proof. intros w e. discriminate. Qed.

Lemma never_print (line : list piece) : never P (print line).
Proof. intros w e. discriminate. Qed.

Lemma never_path_exists (p : string) : never P (path_exists p).
Proof. intros w e. discriminate. Qed.

Lemma never_bind {A B} (m : M A) (k : A -> M B) :
  never P m -> (forall a, never P (k a)) -> never P (bind m k).
Proof.
  intros Hm Hk w e. unfold bind. specialize (Hm w).
  destruct (m w) as [[a|e'] w1]; simpl in *; [apply Hk | intros [= <-]; auto].
Qed.

(** A handler that takes every exception of the class and does not raise
    one itself. *)
Lemma never_try_except {A} (body : M A) (handler : exn -> option (M A)) :
  (forall e, P e = true -> is_Some (handler e)) ->
  (forall e h, handler e = Some h -> never P h) ->
  never P (try_except body handler).
Proof.
  intros Hall Hh w e. unfold try_except.
  destruct (body w) as [[a|e'] w1]; simpl; [discriminate|].
  destruct (handler e') as [h|] eqn:He.
  - apply (Hh e' h He).
  - intros [= <-]. destruct (P e') eqn:HP; [|reflexivity].
    destruct (Hall e' HP) as [h Hsome]. congruence.
Qed.

Lemma never_try_finally {A} (body : M A) (final : M unit) :
  never P body -> never P final -> never P (try_finally body final).
Proof.
  intros Hbody Hfinal w e. unfold try_finally.
  specialize (Hbody w). destruct (body w) as [r w1]. simpl in Hbody.
  specialize (Hfinal w1). destruct (final w1) as [[u|e'] w2]; simpl in *.
  - intros ->. auto.
  - intros [= <-]. auto.
Qed.

End Never.

(** ** The stages and the network *)

Lemma preserves_requests_files {A} (m : M A) :
  (forall w, log (snd (m w)) = log w) -> preserves requests m.
Proof. intros H w. unfold requests. rewrite H. reflexivity. Qed.

Lemma preserves_requests_play_with (E : env) (ps : list (string * list string))
    (audio_file : string) :
  preserves requests (play_with E ps audio_file).
Proof.
  induction ps as [|[player args] ps IH]; simpl.
  - apply offline_print.
  - apply preserves_bind.
    + apply preserves_try_except.
      * apply preserves_bind; [apply offline_subprocess_run|].
        intros _. apply preserves_ret.
      * intros e h. destruct (tool_failure e); [|discriminate].
        intros [= <-]. apply preserves_ret.
    + intros [|]; [apply preserves_ret | exact IH].
Qed.

Lemma preserves_requests_tts_piper (E : env) (text : json) (config : settings) :
  preserves requests (_tts_piper E text config).
Proof.
  unfold _tts_piper.
  apply preserves_bind; [apply preserves_requests_files; reflexivity|]. intros path.
  apply preserves_bind; [apply preserves_lift|]. intros data.
  apply preserves_bind; [apply preserves_requests_files; reflexivity|]. intros _.
  apply preserves_try_finally.
  - apply preserves_try_except.
    + apply preserves_bind; [apply offline_subprocess_run|]. intros _.
      apply preserves_requests_play_with.
    + intros e h. destruct e; try discriminate; intros [= <-].
      * apply preserves_bind; [apply offline_print|]. intros _. apply offline_print.
      * apply offline_print.
  - apply preserves_bind; [apply offline_os_remove|]. intros _.
    apply preserves_bind; [apply offline_path_exists|]. intros [|].
    + apply offline_os_remove.
    + apply preserves_ret.
Qed.

Lemma preserves_requests_tts_espeak (E : env) (text : json) (config : settings) :
  preserves requests (_tts_espeak E text config).
Proof.
  unfold _tts_espeak. apply preserves_try_except.
  - apply preserves_bind; [apply offline_subprocess_run|]. intros _. apply preserves_ret.
  - intros e h. destruct e; try discriminate; intros [= <-].
    + apply preserves_bind; [apply offline_print|]. intros _. apply offline_print.
    + apply offline_print.
Qed.

(** X1. Recording, transcription and synthesis talk to processes and files
    only: whatever the tools and the files do, none of the three sends an
    HTTP request. *)
Theorem local_stages_send_no_request
    (E : env) (audio_file : string) (text : json) (audio whisper tts : settings) :
  preserves requests (record_audio E audio) /\
  preserves requests (transcribe_audio E audio_file whisper) /\
  preserves requests (text_to_speech E text tts).
Proof.
  split; [exact (offline_record_audio E audio)|].
  split; [exact (offline_transcribe_audio E audio_file whisper)|].
  unfold text_to_speech.
  destruct (eq_str _ "piper"); [apply preserves_requests_tts_piper|].
  destruct (eq_str _ "espeak"); [apply preserves_requests_tts_espeak|].
  apply preserves_bind; [apply offline_print|]. intros _. apply offline_print.
Qed.

(** ** Generation and the machine *)

Lemma local_state_emit (e : event) (w : world) :
  is_run e = false -> local_state (emit e w) = local_state w.
Proof.
  intros He. unfold local_state, processes, emit. simpl.
  rewrite List.filter_app. simpl. rewrite He, app_nil_r. reflexivity.
Qed.

Lemma preserves_local_print (line : list piece) : preserves local_state (print line).
Proof. intros w. apply local_state_emit. reflexivity. Qed.

Lemma preserves_local_get (E : env) (url : string) :
  preserves local_state (requests_get E url).
Proof.
  intros w. unfold requests_get.
  destruct (http_get E url (emit (EGet url) w)); apply local_state_emit; reflexivity.
Qed.

Lemma preserves_local_post (E : env) (url : string) (p : gmap string json) :
  preserves local_state (requests_post E url p).
Proof.
  intros w. unfold requests_post.
  destruct (http_post E url p (emit (EPost url p) w)); apply local_state_emit; reflexivity.
Qed.

(** X2. [process_with_ollama] only talks to the server: for every
    configuration, text and behaviour of the server, the files are the same
    afterwards and no process has been started. *)
Theorem process_with_ollama_is_remote_only
    (E : env) (text : string) (config : settings) (w : world) :
  files (snd (process_with_ollama E text config w)) = files w /\
  processes (snd (process_with_ollama E text config w)) = processes w.
Proof.
  assert (H : preserves local_state (process_with_ollama E text config)).
  { unfold process_with_ollama.
    apply preserves_bind; [apply preserves_lift|]. intros model.
    apply preserves_bind.
    - unfold check_running. apply preserves_try_except.
      + apply preserves_bind; [apply preserves_local_get|]. intros r.
        destruct (negb _); [|apply preserves_ret].
        apply preserves_bind; [apply preserves_local_print|]. intros _.
        apply preserves_ret.
      + intros e h. destruct e; try discriminate; intros [= <-].
        apply preserves_bind; [apply preserves_local_print|]. intros _.
        apply preserves_ret.
    - intros [r|]; [apply preserves_ret|].
      apply preserves_try_except.
      + apply preserves_bind; [apply preserves_local_post|]. intros r.
        destruct (status_code r =? 200).
        * apply preserves_bind; [apply preserves_lift|]. intros j. apply preserves_lift.
        * apply preserves_bind; [apply preserves_local_print|]. intros _.
          apply preserves_bind; [apply preserves_local_print|]. intros _.
          apply preserves_ret.
      + intros e h. destruct (is_Exception e); [|discriminate]. intros [= <-].
        apply preserves_bind; [apply preserves_local_print|]. intros _.
        apply preserves_ret. }
  specialize (H w). unfold local_state in H. injection H as Hf Hp. split; assumption.
Qed.

(** ** A failed tool is not fatal after the recording *)

Lemma never_raise {A} (P : exn -> bool) (e : exn) : P e = false -> never P (@raise A e).
Proof. intros He w e'. intros [= <-]. exact He. Qed.

Lemma never_lift {A} (P : exn -> bool) (r : result A) :
  (forall e, r = Raise e -> P e = false) -> never P (lift r).
Proof. intros Hr w e. simpl. apply Hr. Qed.

Lemma never_cpe_os_remove (E : env) (p : string) :
  never is_CalledProcessError (os_remove E p).
Proof.
  intros w e. unfold os_remove.
  destruct (files w !! PyPath.Path p); simpl; [|intros [= <-]; reflexivity].
  destruct (isdir E _); simpl; [|discriminate].
  intros [= <-]. reflexivity.
Qed.

Lemma never_cpe_read_text (E : env) (p : string) :
  never is_CalledProcessError (read_text E p).
Proof.
  intros w e. unfold read_text.
  destruct (files w !! PyPath.Path p); simpl; [|intros [= <-]; reflexivity].
  destruct (isdir E _); simpl; [intros [= <-]; reflexivity|].
  destruct (decode E _); simpl; [discriminate|].
  intros [= <-]. reflexivity.
Qed.

Lemma never_cpe_transcribe_audio (E : env) (audio_file : string) (config : settings) :
  never is_CalledProcessError (transcribe_audio E audio_file config).
Proof.
  unfold transcribe_audio.
  apply never_bind.
  { apply never_lift. intros e. unfold and_then, getitem, Path_of.
    destruct (config !! "executable") as [[| | | |s]|]; intros [= <-]; reflexivity. }
  intros exe. apply never_bind; [apply never_path_exists|]. intros found.
  destruct found; simpl; [|apply never_raise; reflexivity].
  apply never_bind.
  { apply never_lift. intros e. unfold whisper_cmd, and_then, getitem, split_of.
    destruct (config !! "model") as [m|]; [|intros [= <-]; reflexivity].
    destruct (config !! "params") as [[| | | |s]|]; intros [= <-]; reflexivity. }
  intros cmd. apply never_try_except.
  - intros e He. destruct e; try discriminate. eauto.
  - intros e h. destruct e; try discriminate. intros [= <-].
    repeat (apply never_bind; [apply never_print|intros _]). apply never_ret.
Qed.

Lemma never_cpe_play_with (E : env) (ps : list (string * list string)) (audio_file : string) :
  never is_CalledProcessError (play_with E ps audio_file).
Proof.
  induction ps as [|[player args] ps IH]; simpl; [apply never_print|].
  apply never_bind.
  - apply never_try_except.
    + intros e He. destruct e; try discriminate. simpl. eauto.
    + intros e h. destruct (tool_failure e); [|discriminate].
      intros [= <-]. apply never_ret.
  - intros [|]; [apply never_ret | exact IH].
Qed.

Lemma never_cpe_text_to_speech (E : env) (text : json) (config : settings) :
  never is_CalledProcessError (text_to_speech E text config).
Proof.
  unfold text_to_speech.
  destruct (eq_str _ "piper"); [|destruct (eq_str _ "espeak")].
  - unfold _tts_piper.
    apply never_bind; [intros w e; discriminate|]. intros path.
    apply never_bind.
    { apply never_lift. intros e. unfold encode.
      destruct (as_str text) as [s|]; [|intros [= <-]; reflexivity].
      destruct (utf8 E s); intros [= <-]. reflexivity. }
    intros data. apply never_bind; [intros w e; discriminate|]. intros _.
    apply never_try_finally.
    + apply never_try_except.
      * intros e He. destruct e; try discriminate. eauto.
      * intros e h. destruct e; try discriminate; intros [= <-].
        -- apply never_bind; [apply never_print|]. intros _. apply never_print.
        -- apply never_print.
    + apply never_bind; [apply never_cpe_os_remove|]. intros _.
      apply never_bind; [apply never_path_exists|]. intros [|].
      * apply never_cpe_os_remove.
      * apply never_ret.
  - unfold _tts_espeak. apply never_try_except.
    + intros e He. destruct e; try discriminate. eauto.
    + intros e h. destruct e; try discriminate; intros [= <-].
      * apply never_bind; [apply never_print|]. intros _. apply never_print.
      * apply never_print.
  - apply never_bind; [apply never_print|]. intros _. apply never_print.
Qed.

(** X3. A tool that exits with a status other than 0 never ends the
    transcription, the playback or the synthesis: none of them lets a
    [CalledProcessError] out, whatever the configuration, the text and the
    tools. *)
Theorem exit_status_is_never_fatal_after_recording
    (E : env) (audio_file : string) (text : json) (whisper tts : settings) :
  never is_CalledProcessError (transcribe_audio E audio_file whisper) /\
  never is_CalledProcessError (play_audio E audio_file) /\
  never is_CalledProcessError (text_to_speech E text tts).
Proof.
  split; [apply never_cpe_transcribe_audio|].
  split; [apply never_cpe_play_with | apply never_cpe_text_to_speech].
Qed.

(** ** The transcript is trimmed *)

Lemma rstrip_rstrip (s : string) : PyStr.rstrip (PyStr.rstrip s) = PyStr.rstrip s.
Proof.
  induction s as [|a s IH]; [reflexivity|]. simpl.
  destruct (PyStr.rstrip s) as [|b r] eqn:Hr.
  - destruct (PyStr.is_space a) eqn:Ha; [reflexivity|]. simpl. rewrite Ha. reflexivity.
  - change (PyStr.rstrip (String a (String b r)))
      with (match PyStr.rstrip (String b r) with
            | EmptyString => if PyStr.is_space a then EmptyString else String a EmptyString
            | r' => String a r'
            end).
    rewrite IH. reflexivity.
Qed.

Lemma text_first_lstrip (s : string) : text_first (PyStr.lstrip s) = true.
Proof.
  induction s as [|a s IH]; [reflexivity|]. simpl.
  destruct (PyStr.is_space a) eqn:Ha; [exact IH|]. simpl. rewrite Ha. reflexivity.
Qed.

Lemma text_first_rstrip (s : string) :
  text_first s = true -> text_first (PyStr.rstrip s) = true.
Proof.
  destruct s as [|a s]; [reflexivity|]. simpl. intros Ha.
  destruct (PyStr.rstrip s); [|exact Ha].
  apply negb_true_iff in Ha. rewrite Ha. simpl. rewrite Ha. reflexivity.
Qed.

Lemma lstrip_text_first (s : string) : text_first s = true -> PyStr.lstrip s = s.
Proof.
  destruct s as [|a s]; [reflexivity|]. simpl. intros Ha.
  apply negb_true_iff in Ha. rewrite Ha. reflexivity.
Qed.

(** [s.strip().strip() == s.strip()] *)
Lemma strip_strip (s : string) : PyStr.strip (PyStr.strip s) = PyStr.strip s.
Proof.
  unfold PyStr.strip.
  rewrite (lstrip_text_first (PyStr.rstrip (PyStr.lstrip s)))
    by (apply text_first_rstrip, text_first_lstrip).
  apply rstrip_rstrip.
Qed.

Lemma returns_ret {A} (Q : A -> Prop) (a : A) : Q a -> returns Q (ret a).
Proof. intros Ha w a' w'. intros [= <- _]. exact Ha. Qed.

Lemma returns_raise {A} (Q : A -> Prop) (e : exn) : returns Q (raise e).
Proof. intros w a w'. discriminate. Qed.

Lemma returns_bind {A B} (Q : B -> Prop) (m : M A) (k : A -> M B) :
  (forall a, returns Q (k a)) -> returns Q (bind m k).
Proof.
  intros Hk w b w'. unfold bind.
  destruct (m w) as [[a|e] w1]; [apply Hk | discriminate].
Qed.

Lemma returns_try_except {A} (Q : A -> Prop) (body : M A) (handler : exn -> option (M A)) :
  returns Q body ->
  (forall e h, handler e = Some h -> returns Q h) ->
  returns Q (try_except body handler).
Proof.
  intros Hbody Hh w a w'. unfold try_except.
  destruct (body w) as [[a'|e] w1] eqn:Hb.
  - intros [= <- <-]. exact (Hbody _ _ _ Hb).
  - destruct (handler e) as [h|] eqn:He; [apply (Hh e h He) | discriminate].
Qed.

Lemma transcribe_audio_returns_stripped (E : env) (audio_file : string) (config : settings) :
  returns (fun t => PyStr.strip t = t) (transcribe_audio E audio_file config).
Proof.
  unfold transcribe_audio.
  apply returns_bind. intros exe. apply returns_bind. intros found.
  destruct found; simpl; [|apply returns_raise].
  apply returns_bind. intros cmd. apply returns_try_except.
  - apply returns_bind. intros result. apply returns_bind. intros found.
    destruct found.
    + apply returns_bind. intros transcript. apply returns_bind. intros _.
      apply returns_ret, strip_strip.
    + apply returns_ret, strip_strip.
  - intros e h. destruct e; try discriminate. intros [= <-].
    apply returns_bind. intros _. apply returns_bind. intros _.
    apply returns_ret. reflexivity.
Qed.

(** X4. What [transcribe_audio] returns is trimmed: stripping it again
    changes nothing, so a transcript made of whitespace can only be the
    empty string. *)
Theorem transcript_is_trimmed
    (E : env) (audio_file : string) (config : settings) (w w' : world) (t : string) :
  transcribe_audio E audio_file config w = (Ok t, w') ->
  PyStr.strip t = t /\ (PyStr.all_space t = true -> t = "").
Proof.
  intros Hrun.
  pose proof (transcribe_audio_returns_stripped E audio_file config w t w' Hrun) as Hs.
  split; [exact Hs|]. intros Hblank.
  pose proof (truthy_strip t) as Ht. rewrite Hs, Hblank in Ht.
  destruct t; [reflexivity | discriminate].
Qed.

Lemma transcript_is_trimmed_witness :
  PyStr.strip "turn on the light" = "turn on the light" /\
  (PyStr.all_space "turn on the light" = true -> "turn on the light" = "").
Proof.
  apply (transcript_is_trimmed (quiet_env "  turn on the light  " None)
           "/tmp/recording_1700000000.wav" (default_config !!! "whisper")
           installed
           (set_files (files installed)
              (emit (ERun (map (fun a : string => JScalar a)
                             [ "whisper.cpp/main"; "-f"; "/tmp/recording_1700000000.wav";
                               "-m"; "./whisper.cpp/models/ggml-base.en.bin"; "-otxt";
                               "--model"; "models/ggml-base.en.bin"; "-l"; "en" ]))
                    installed))).
  vm_compute. reflexivity.
Defined.

(** ** The transcript file *)



(** A directory at the path of the executable is on the disk, so the
    check passes and the recognizer is started; the error of the system is
    not caught.  A directory at the path of the configuration file is not
    read. *)
Example directory_as_executable :
  fst (transcribe_audio (directory_env "whisper.cpp/main") "/tmp/clip.wav"
         (default_config !!! "whisper") installed) = Raise OSError /\
  fst (main (directory_env "config.json") (Args "config.json" None None None false) 0
         {| files := {[ "config.json" := "" ]}; log := [] |}) = Raise IsADirectoryError.
Proof. split; vm_compute; reflexivity. Qed.

(** X6. The settings are checked before the recognizer is started.  A
    missing [executable] is a [KeyError] and one that is not a string a
    [TypeError]; with the executable on the disk, a missing [model] is a
    [KeyError] and [params] that are not a string an [AttributeError].  In
    each case the world is as it was: nothing has been run. *)
Theorem transcribe_audio_checks_settings_first
    (E : env) (audio_file : string) (config : settings) (w : world) :
  (config !! "executable" = None ->
   transcribe_audio E audio_file config w = (Raise (KeyError "executable"), w)) /\
  (forall v, config !! "executable" = Some v -> (forall s, v <> SStr s) ->
             transcribe_audio E audio_file config w = (Raise TypeError, w)) /\
  (forall exe, config !! "executable" = Some (SStr exe) -> on_disk w exe = true ->
     (config !! "model" = None ->
      transcribe_audio E audio_file config w = (Raise (KeyError "model"), w)) /\
     (forall m p, config !! "model" = Some m -> config !! "params" = Some p ->
                  (forall s, p <> SStr s) ->
                  transcribe_audio E audio_file config w = (Raise AttributeError, w))).
Proof.
  split; [|split].
  - intros Hexe. run transcribe_audio. rewrite Hexe. reflexivity.
  - intros v Hexe Hv. run transcribe_audio. rewrite Hexe.
    destruct v as [| | | |s]; try reflexivity. exfalso. exact (Hv s eq_refl).
  - intros exe Hexe Hd. split.
    + intros Hm. run transcribe_audio. unfold path_exists.
      rewrite Hexe. simpl. rewrite on_disk_Path, Hd. simpl.
      unfold whisper_cmd, and_then, getitem. rewrite Hm. reflexivity.
    + intros m p Hm Hp Hstr. run transcribe_audio. unfold path_exists.
      rewrite Hexe. simpl. rewrite on_disk_Path, Hd. simpl.
      unfold whisper_cmd, and_then, getitem. rewrite Hm, Hp.
      destruct p as [| | | |s]; try reflexivity. exfalso. exact (Hstr s eq_refl).
Qed.

(** ** Playback: [play_audio] *)

(** X7. [play_audio] tries [aplay], then [paplay], then [play -q], each on
    the file it is given, and stops at the first that runs to a status 0.
    A player is skipped when its call ends with [FileNotFoundError] or
    [CalledProcessError]; when the three are skipped, one line is printed
    and [play_audio] still returns normally. *)
Theorem play_audio_takes_first_player (E : env) (audio_file : string) (w : world) :
  let first := subprocess_run E false [ JScalar "aplay"; JScalar audio_file ] w in
  let second :=
    subprocess_run E false [ JScalar "paplay"; JScalar audio_file ] (snd first) in
  let third :=
    subprocess_run E false [ JScalar "play"; JScalar "-q"; JScalar audio_file ]
                   (snd second) in
  (forall c, fst first = Ok c -> play_audio E audio_file w = (Ok tt, snd first)) /\
  (failed_tool first ->
   (forall c, fst second = Ok c -> play_audio E audio_file w = (Ok tt, snd second)) /\
   (failed_tool second ->
    (forall c, fst third = Ok c -> play_audio E audio_file w = (Ok tt, snd third)) /\
    (failed_tool third ->
     play_audio E audio_file w =
       (Ok tt,
        emit (EPrint [Lit "No suitable audio player found. Install aplay, paplay, or sox."])
             (snd third))))).
Proof.
  intros first second third.
  unfold play_audio, players. simpl. unfold bind, try_except, ret.
  fold first.
  destruct first as [[c1|e1] w1] eqn:H1; simpl in *.
  - split; [reflexivity|]. intros (e & [=] & _).
  - split; [discriminate|]. intros (e & [= <-] & He1). rewrite He1.
    fold second.
    destruct second as [[c2|e2] w2] eqn:H2; simpl in *.
    + split; [reflexivity|]. intros (e & [=] & _).
    + split; [discriminate|]. intros (e & [= <-] & He2). rewrite He2.
      fold third.
      destruct third as [[c3|e3] w3] eqn:H3; simpl in *.
      * split; [reflexivity|]. intros (e & [=] & _).
      * split; [discriminate|]. intros (e & [= <-] & He3). rewrite He3.
        reflexivity.
Qed.

(** ** Synthesis with piper: the temporary files *)

(** What the [finally] block of [_tts_piper] leaves. *)
Lemma piper_cleanup (E : env) (text_file out : string) (w : world) :
  let final :=
    bind (os_remove E text_file) (fun _ =>
    bind (path_exists out) (fun found =>
    if found : bool then os_remove E out else ret tt)) in
  (isdir E (PyPath.Path text_file) = false ->
   on_disk (snd (final w)) text_file = false) /\
  (forall u, fst (final w) = Ok u -> on_disk (snd (final w)) out = false).
Proof.
  intros final. unfold final, bind, os_remove, path_exists, ret.
  destruct (files w !! PyPath.Path text_file) as [c|] eqn:Htext; simpl.
  - destruct (isdir E (PyPath.Path text_file)) eqn:Hdir; simpl.
    { split; [discriminate|]. intros u [=]. }
    set (w1 := set_files (delete (PyPath.Path text_file) (files w)) w).
    assert (Hgone : files w1 !! PyPath.Path text_file = None)
      by apply lookup_delete_eq.
    destruct (on_disk w1 out) eqn:Hout.
    + pose proof Hout as Hsome. unfold on_disk in Hsome.
      apply bool_decide_eq_true_1 in Hsome. destruct Hsome as [c' Hc'].
      rewrite Hc'. simpl.
      destruct (isdir E (PyPath.Path out)); simpl.
      * split; [|intros u [=]]. intros _.
        unfold on_disk. apply bool_decide_eq_false_2. intros [x Hx]. congruence.
      * unfold on_disk. simpl. split.
        -- intros _. apply bool_decide_eq_false_2. intros [x Hx].
           rewrite lookup_delete in Hx. case_decide; [discriminate|].
           unfold w1 in Hx. simpl in Hx. rewrite lookup_delete_eq in Hx. discriminate.
        -- intros _ _. apply bool_decide_eq_false_2. intros [x Hx].
           rewrite lookup_delete_eq in Hx. discriminate.
    + simpl. split; [|intros _ _; exact Hout]. intros _.
      unfold on_disk. apply bool_decide_eq_false_2. intros [x Hx]. congruence.
  - split; [|discriminate]. intros _.
    unfold on_disk. apply bool_decide_eq_false_2. intros [x Hx]. congruence.
Qed.

Lemma try_finally_always {A} (body : M A) (final : M unit) (Q : world -> Prop) (w : world) :
  (forall wb, Q (snd (final wb))) -> Q (snd (try_finally body final w)).
Proof.
  intros H. unfold try_finally. destruct (body w) as [r wb].
  specialize (H wb). destruct (final wb) as [[u|e] w2]; exact H.
Qed.

Lemma try_finally_on_return {A} (body : M A) (final : M unit) (Q : world -> Prop)
    (w : world) (a : A) :
  (forall wb u, fst (final wb) = Ok u -> Q (snd (final wb))) ->
  fst (try_finally body final w) = Ok a -> Q (snd (try_finally body final w)).
Proof.
  intros H. unfold try_finally. destruct (body w) as [r wb].
  specialize (H wb). destruct (final wb) as [[u|e] w2]; simpl in *; [|discriminate].
  intros _. apply (H u). reflexivity.
Qed.

(** X8. Once the text is in its temporary file, [_tts_piper] leaves no
    temporary file: whatever piper and the players do and however the call
    ends, the text file is not on the disk afterwards, and when the call
    returns normally the wav file is not there either.  The text is
    written when it encodes; a text that UTF-8 refuses ends the call with
    [UnicodeEncodeError] before the [try], nothing is run, and the
    temporary file that was made for it stays behind, empty. *)
Theorem piper_leaves_no_temporary_file
    (E : env) (text : string) (config : settings) (w : world) :
  let text_file := mktemp E ".txt" w in
  let wav := PyPath.join (gettempdir E) "tts_output.wav" in
  let r := _tts_piper E (JScalar (SStr text)) config w in
  (forall data, utf8 E text = Some data ->
     isdir E (PyPath.Path text_file) = false ->
     on_disk (snd r) text_file = false /\
     (fst r = Ok tt -> on_disk (snd r) wav = false)) /\
  (utf8 E text = None ->
   r = (Raise UnicodeEncodeError,
        {| files := <[PyPath.Path text_file := ""]> (files w); log := log w |})).
Proof.
  intros text_file wav r. subst r. split.
  - intros data Hdata Hreg.
    unfold _tts_piper, bind at 1, NamedTemporaryFile.
    unfold bind at 1, lift, encode. simpl as_str. cbv iota. rewrite Hdata.
    unfold bind at 1, file_write. fold text_file. fold wav. split.
    + refine (try_finally_always _ _ (fun w' => on_disk w' text_file = false) _ _).
      intros wb. apply (piper_cleanup E text_file wav wb). exact Hreg.
    + refine (try_finally_on_return _ _ (fun w' => on_disk w' wav = false) _ tt _).
      intros wb u. apply (piper_cleanup E text_file wav wb).
  - intros Hbad.
    unfold _tts_piper, bind, NamedTemporaryFile, lift, encode.
    simpl as_str. cbv iota. rewrite Hbad. reflexivity.
Qed.

Lemma piper_leaves_no_temporary_file_witness :
  on_disk (snd (_tts_piper (quiet_env "" None) (JScalar (SStr "hello"))
                  (default_config !!! "tts") bare)) "/tmp/tmpk3x9.txt" = false /\
  _tts_piper (strict_env "reply") (JScalar (SStr "reply")) (default_config !!! "tts") bare =
    (Raise UnicodeEncodeError,
     {| files := <[PyPath.Path "/tmp/tmpk3x9.txt" := ""]> (files bare); log := log bare |}).
Proof.
  split.
  - destruct (piper_leaves_no_temporary_file (quiet_env "" None) "hello"
                (default_config !!! "tts") bare) as [Hwritten _].
    destruct (Hwritten "hello" eq_refl eq_refl) as [Hgone _]. exact Hgone.
  - destruct (piper_leaves_no_temporary_file (strict_env "reply") "reply"
                (default_config !!! "tts") bare) as [_ Hrefused].
    apply Hrefused. reflexivity.
Defined.

(** ** Synthesis of a reply that is not text *)

(** X9. A reply that is not a string stops the synthesis with an exception.
    With piper (also when no engine is configured) it is [AttributeError]:
    the temporary text file has been made, stays behind empty, and nothing
    is run.  With espeak it is the [TypeError] of [subprocess.run]: no
    process is started and the files are untouched. *)
Theorem reply_that_is_not_text_stops_synthesis
    (E : env) (text : json) (config : settings) (w : world) :
  as_str text = None ->
  (get config "engine" (SStr "piper") = SStr "piper" ->
   text_to_speech E text config w =
     (Raise AttributeError,
      {| files := <[PyPath.Path (mktemp E ".txt" w) := ""]> (files w); log := log w |})) /\
  (get config "engine" (SStr "piper") = SStr "espeak" ->
   text_to_speech E text config w =
     (Raise TypeError,
      {| files := files w;
         log := log w ++
                [ ERun [ JScalar "espeak"; JScalar "-v"; JScalar (get config "voice" (SStr "en"));
                         JScalar "-s"; JScalar (py_str (get config "speed" (SInt 150)));
                         text ] ] |})).
Proof.
  intros Htext. split; intros Hengine; unfold text_to_speech; rewrite Hengine; simpl.
  - unfold _tts_piper, bind, NamedTemporaryFile, lift, encode. rewrite Htext. reflexivity.
  - unfold _tts_espeak, try_except, bind, subprocess_run.
    assert (Hargs : as_args [ JScalar "espeak"; JScalar "-v";
                              JScalar (get config "voice" (SStr "en"));
                              JScalar "-s"; JScalar (py_str (get config "speed" (SInt 150)));
                              text ] = None).
    { unfold as_args. simpl. rewrite Htext.
      destruct (get config "voice" (SStr "en")); reflexivity. }
    rewrite Hargs. reflexivity.
Qed.

Lemma reply_that_is_not_text_stops_synthesis_witness :
  fst (text_to_speech (quiet_env "" None) (JScalar (SInt 42))
         (default_config !!! "tts") installed) = Raise AttributeError /\
  fst (text_to_speech (quiet_env "" None) (JScalar (SInt 42))
         {[ "engine" := SStr "espeak" ]} installed) = Raise TypeError.
Proof.
  split.
  - destruct (reply_that_is_not_text_stops_synthesis (quiet_env "" None)
                (JScalar (SInt 42)) (default_config !!! "tts") installed eq_refl)
      as [Hpiper _].
    rewrite Hpiper; reflexivity.
  - destruct (reply_that_is_not_text_stops_synthesis (quiet_env "" None)
                (JScalar (SInt 42)) {[ "engine" := SStr "espeak" ]} installed eq_refl)
      as [_ Hespeak].
    rewrite Hespeak; reflexivity.
Defined.

(** ** Synthesis without piper *)

(** X10. When piper is not installed, the synthesis is given up without an
    error: for a text that encodes, [_tts_piper] runs nothing else, prints
    two lines of advice and returns normally; the two temporary files are
    not on the disk and every other file is as it was.  The temporary name
    and the path of the wav file are not those of directories. *)
Theorem piper_not_installed_is_not_fatal
    (E : env) (text data : string) (config : settings) (w : world) (msg : string) :
  let text_file := mktemp E ".txt" w in
  let wav := PyPath.join (gettempdir E) "tts_output.wav" in
  let argv :=
    [ "piper"; "--model";
      "piper-voices/" +:+ py_str (get config "voice" (SStr "en_US-amy-medium")) +:+ "/model.onnx";
      "--output_file"; wav; "--text_file"; text_file ] in
  let cmd := map (fun a : string => JScalar a) argv in
  utf8 E text = Some data ->
  isdir E (PyPath.Path text_file) = false ->
  isdir E (PyPath.Path wav) = false ->
  spawn E argv
    (emit (ERun cmd) (set_files (<[PyPath.Path text_file := data]> (files w)) w))
    = SpawnFailed (FileNotFoundError msg) ->
  exists w',
    _tts_piper E (JScalar (SStr text)) config w = (Ok tt, w') /\
    log w' = log w ++ [ ERun cmd;
                        EPrint [Lit "Piper not found. Make sure it's installed."];
                        EPrint [Lit "Install with: pip install piper-tts"] ] /\
    on_disk w' text_file = false /\
    on_disk w' wav = false /\
    (forall p, p <> PyPath.Path text_file -> p <> PyPath.Path wav ->
               files w' !! p = files w !! p).
Proof.
  intros text_file wav argv cmd Hdata Hreg Hregw Hspawn.
  set (k := PyPath.Path text_file) in *.
  assert (Hfs : <[k := data]> (<[k := ""]> (files w)) = <[k := data]> (files w))
    by apply insert_insert_eq.
  unfold _tts_piper, bind, NamedTemporaryFile, lift, encode, file_write.
  simpl as_str. cbv iota. rewrite Hdata. fold text_file. fold k.
  unfold set_files at 1 2. simpl files. simpl log. rewrite Hfs.
  fold wav.
  change [ JScalar "piper"; JScalar "--model";
           JScalar ("piper-voices/" +:+ py_str (get config "voice" (SStr "en_US-amy-medium"))
                    +:+ "/model.onnx");
           JScalar "--output_file"; JScalar wav; JScalar "--text_file"; JScalar text_file ]
    with cmd.
  unfold try_finally, try_except, subprocess_run.
  rewrite (as_args_strings argv : as_args cmd = Some argv).
  change (set_files (<[k:=data]> (files w)) w)
    with {| files := <[k:=data]> (files w); log := log w |} in Hspawn.
  rewrite Hspawn. unfold print, os_remove, path_exists. simpl.
  fold k. rewrite lookup_insert_eq, Hreg. simpl.
  set (w1 := set_files _ _).
  assert (Hk : files w1 !! k = None) by apply lookup_delete_eq.
  assert (Hother : forall p, p <> k -> files w1 !! p = files w !! p).
  { intros p Hp. unfold w1. simpl.
    rewrite lookup_delete_ne, lookup_insert_ne by congruence. reflexivity. }
  assert (Hlog : log w1 = log w ++ [ ERun cmd;
                        EPrint [Lit "Piper not found. Make sure it's installed."];
                        EPrint [Lit "Install with: pip install piper-tts"] ]).
  { unfold w1. simpl. rewrite <- !app_assoc. reflexivity. }
  clearbody w1.
  destruct (on_disk w1 wav) eqn:Hwav.
  - pose proof Hwav as Hsome. unfold on_disk in Hsome.
    apply bool_decide_eq_true_1 in Hsome. destruct Hsome as [c Hc].
    rewrite Hc, Hregw. eexists. split; [reflexivity|]. simpl.
    split; [exact Hlog|]. split; [|split].
    + unfold on_disk. simpl. fold k. apply bool_decide_eq_false_2. intros [x Hx].
      rewrite lookup_delete in Hx. case_decide; congruence.
    + unfold on_disk. simpl. apply bool_decide_eq_false_2. intros [x Hx].
      rewrite lookup_delete_eq in Hx. discriminate.
    + intros p Hp Hpw. rewrite lookup_delete_ne by congruence. apply Hother, Hp.
  - eexists. split; [reflexivity|]. simpl.
    split; [exact Hlog|]. split; [|split].
    + unfold on_disk. fold k. apply bool_decide_eq_false_2. intros [x Hx]. congruence.
    + exact Hwav.
    + intros p Hp _. apply Hother, Hp.
Qed.

Lemma piper_not_installed_is_not_fatal_witness :
  exists w',
    _tts_piper bare_env (JScalar (SStr "hello")) (default_config !!! "tts") bare = (Ok tt, w') /\
    on_disk w' "/tmp/tmpk3x9.txt" = false.
Proof.
  destruct (piper_not_installed_is_not_fatal bare_env "hello" "hello"
              (default_config !!! "tts") bare "piper" eq_refl eq_refl eq_refl eq_refl)
    as (w' & Hrun & _ & Hgone & _).
  exists w'. split; [exact Hrun | exact Hgone].
Defined.

(** ** More on the command line *)

Lemma given_dec (flag : option string) :
  given flag \/ (flag = None \/ flag = Some "").
Proof.
  destruct flag as [v|]; [|auto].
  destruct (decide (v = "")) as [->|Hv]; [auto|]. left. exists v. auto.
Qed.

(** One override that succeeds: what it sets and what it leaves. *)
Lemma override_ok (flag : option string) (sec key : string) (c c' : configuration) :
  override flag sec key c = Ok c' ->
  (given flag -> is_Some (c !! sec)) /\
  dom c' = dom c /\
  (forall v, flag = Some v -> v <> "" -> lookup2 c' sec key = Some (SStr v)) /\
  (forall sec' key', (sec', key') <> (sec, key) ->
                     lookup2 c' sec' key' = lookup2 c sec' key').
Proof.
  intros Hrun.
  destruct (given_dec flag) as [(v & -> & Hv) | Hskip].
  - assert (Hsec : is_Some (c !! sec)).
    { unfold override, setitem2, and_then, getitem in Hrun.
      destruct v; [congruence|]. simpl in Hrun.
      destruct (c !! sec); [eauto | discriminate]. }
    destruct (override_spec (Some v) sec key c Hsec) as (c'' & Hrun' & Hdom & Hset & _ & Hrest).
    assert (c'' = c') by congruence. subst c''. auto.
  - rewrite (override_skip flag sec key c Hskip) in Hrun. injection Hrun as <-.
    split; [|split; [reflexivity|split]].
    + intros (v & Hf & Hv). destruct Hskip as [H|H]; congruence.
    + intros v Hf Hv. destruct Hskip as [H|H]; congruence.
    + reflexivity.
Qed.

(** A setting that already has the value of the flag is left as it is. *)
Lemma override_fixed (flag : option string) (sec key : string) (c : configuration) :
  (forall v, flag = Some v -> v <> "" -> lookup2 c sec key = Some (SStr v)) ->
  override flag sec key c = Ok c.
Proof.
  intros Hset.
  destruct (given_dec flag) as [(v & -> & Hv) | Hskip]; [|apply override_skip, Hskip].
  specialize (Hset v eq_refl Hv). unfold lookup2 in Hset.
  destruct (c !! sec) as [s|] eqn:Hs; [|discriminate]. simpl in Hset.
  rewrite (override_Some v sec key c s Hv Hs).
  rewrite (insert_id s key (SStr v) Hset), (insert_id c sec s Hs). reflexivity.
Qed.

(** X11. Applying the overrides of a command line twice is applying them
    once: on the configuration they produce they succeed and change
    nothing. *)
Theorem override_config_idempotent (a : args) (c c' : configuration) :
  override_config a c = Ok c' -> override_config a c' = Ok c'.
Proof.
  unfold override_config, and_then. intros Hrun.
  destruct (override (model a) "ollama" "model" c) as [c1|] eqn:H1; [|discriminate].
  destruct (override (whisper_model a) "whisper" "model" c1) as [c2|] eqn:H2;
    [|discriminate].
  destruct (override_ok _ _ _ _ _ H1) as (_ & _ & S1 & _).
  destruct (override_ok _ _ _ _ _ H2) as (_ & _ & S2 & F2).
  destruct (override_ok _ _ _ _ _ Hrun) as (_ & _ & S3 & F3).
  rewrite (override_fixed (model a) "ollama" "model" c').
  - rewrite (override_fixed (whisper_model a) "whisper" "model" c').
    + apply override_fixed. exact S3.
    + intros v Hf Hv. rewrite F3 by congruence. exact (S2 v Hf Hv).
  - intros v Hf Hv. rewrite F3, F2 by congruence. exact (S1 v Hf Hv).
Qed.

Lemma override_config_idempotent_witness :
  override_config (Args "config.json" (Some "mistral") None (Some "espeak") false)
    (<["ollama" := <["model" := SStr "mistral"]> (default_config !!! "ollama")]>
       (<["tts" := <["engine" := SStr "espeak"]> (default_config !!! "tts")]> default_config))
  = Ok (<["ollama" := <["model" := SStr "mistral"]> (default_config !!! "ollama")]>
          (<["tts" := <["engine" := SStr "espeak"]> (default_config !!! "tts")]> default_config)).
Proof.
  apply (override_config_idempotent
           (Args "config.json" (Some "mistral") None (Some "espeak") false)
           default_config).
  vm_compute. reflexivity.
Defined.

Lemma override_error (flag : option string) (sec key : string) (c : configuration)
    (e : exn) :
  override flag sec key c = Raise e -> given flag /\ c !! sec = None /\ e = KeyError sec.
Proof.
  intros Hrun.
  destruct (given_dec flag) as [(v & -> & Hv) | Hskip].
  - split; [exists v; auto|].
    unfold override, setitem2, and_then, getitem in Hrun.
    destruct v; [congruence|]. simpl in Hrun.
    destruct (c !! sec); [discriminate|]. injection Hrun as <-. auto.
  - rewrite (override_skip flag sec key c Hskip) in Hrun. discriminate.
Qed.

(** X12. The overrides succeed exactly when every flag that is applied has
    its section in the configuration; otherwise they end with the
    [KeyError] of a missing section among [ollama], [whisper] and [tts]. *)
Theorem override_config_needs_the_sections (a : args) (c : configuration) :
  ((exists c', override_config a c = Ok c') <->
   (given (model a) -> is_Some (c !! "ollama")) /\
   (given (whisper_model a) -> is_Some (c !! "whisper")) /\
   (given (tts_engine a) -> is_Some (c !! "tts"))) /\
  (forall e, override_config a c = Raise e ->
     exists sec, e = KeyError sec /\ c !! sec = None /\
                 (sec = "ollama" /\ given (model a)
                  \/ sec = "whisper" /\ given (whisper_model a)
                  \/ sec = "tts" /\ given (tts_engine a))).
Proof.
  assert (Hsame : forall flag sec key c0 c1 sec',
             override flag sec key c0 = Ok c1 -> c1 !! sec' = None <-> c0 !! sec' = None).
  { intros flag sec key c0 c1 sec' H.
    destruct (override_ok _ _ _ _ _ H) as (_ & Hdom & _).
    rewrite <- !not_elem_of_dom, Hdom. reflexivity. }
  unfold override_config, and_then.
  destruct (override (model a) "ollama" "model" c) as [c1|e1] eqn:H1.
  - destruct (override (whisper_model a) "whisper" "model" c1) as [c2|e2] eqn:H2.
    + destruct (override (tts_engine a) "tts" "engine" c2) as [c3|e3] eqn:H3.
      * split; [|discriminate]. split; [|eauto]. intros _.
        destruct (override_ok _ _ _ _ _ H1) as (G1 & D1 & _).
        destruct (override_ok _ _ _ _ _ H2) as (G2 & D2 & _).
        destruct (override_ok _ _ _ _ _ H3) as (G3 & D3 & _).
        split; [exact G1|]. split; intros Hg.
        -- apply elem_of_dom. rewrite <- D1. apply elem_of_dom. exact (G2 Hg).
        -- apply elem_of_dom. rewrite <- D1, <- D2. apply elem_of_dom. exact (G3 Hg).
      * destruct (override_error _ _ _ _ _ H3) as (G3 & N3 & ->).
        apply (Hsame _ _ _ _ _ "tts" H2) in N3. apply (Hsame _ _ _ _ _ "tts" H1) in N3.
        split.
        -- split; [intros [c' [=]]|]. intros (_ & _ & Ht).
           destruct (Ht G3) as [s Hs]. congruence.
        -- intros e [= <-]. exists "tts". split; [reflexivity|]. split; [exact N3|].
           right. right. auto.
    + destruct (override_error _ _ _ _ _ H2) as (G2 & N2 & ->).
      apply (Hsame _ _ _ _ _ "whisper" H1) in N2.
      split.
      * split; [intros [c' [=]]|]. intros (_ & Hw & _).
        destruct (Hw G2) as [s Hs]. congruence.
      * intros e [= <-]. exists "whisper". split; [reflexivity|]. split; [exact N2|].
        right. left. auto.
  - destruct (override_error _ _ _ _ _ H1) as (G1 & N1 & ->).
    split.
    + split; [intros [c' [=]]|]. intros (Ho & _).
      destruct (Ho G1) as [s Hs]. congruence.
    + intros e [= <-]. exists "ollama". split; [reflexivity|]. split; [exact N1|].
      left. auto.
Qed.

(** ** More on [main] *)

(** X13. When nothing is at the path of the configuration file, [main]
    says so and opens the path for writing.  When the file can be made,
    [main] writes the default configuration as [json.dump] renders it,
    says so, and goes on exactly as if it had been started with that file
    in place.  When it cannot (the directory of the path is missing, or
    writing there is refused), [main] ends with the error of [open],
    having written nothing and printed nothing more. *)
Theorem main_creates_default_config (E : env) (a : args) (fuel : nat) (w : world) :
  on_disk w (config a) = false ->
  let w1 := emit (EPrint [Lit ("Config file not found: " +:+ config a)]) w in
  (open_w E (config a) w1 = None ->
   main E a fuel w =
     main E a fuel
       {| files := <[PyPath.Path (config a) := json_dumps E default_config]> (files w);
          log := log w ++ [ EPrint [Lit ("Config file not found: " +:+ config a)];
                            EPrint [Lit ("Created default config at " +:+ config a)] ] |}) /\
  (forall e, open_w E (config a) w1 = Some e ->
             main E a fuel w = (Raise e, w1)).
Proof.
  intros Hmissing w1. split.
  - intros Hopen.
    set (w' := {| files := <[PyPath.Path (config a) := json_dumps E default_config]> (files w);
                  log := log w ++ [ EPrint [Lit ("Config file not found: " +:+ config a)];
                                    EPrint [Lit ("Created default config at " +:+ config a)] ] |}).
    assert (Hthere : on_disk w' (config a) = true).
    { unfold on_disk, w'. simpl. apply bool_decide_eq_true_2.
      rewrite lookup_insert_eq. eauto. }
    unfold main. unfold bind at 1. unfold path_exists at 1. rewrite Hmissing.
    symmetry. unfold bind at 1. unfold path_exists at 1. rewrite Hthere. symmetry.
    simpl negb. cbv iota.
    unfold bind at 1. unfold bind at 1.
    unfold print at 1, create_default_config, write_text.
    unfold bind at 1. unfold w1 in Hopen. rewrite Hopen.
    unfold file_write, print at 1.
    assert (Hw : emit (EPrint [Lit ("Created default config at " +:+ config a)])
                   (set_files
                      (<[PyPath.Path (config a) := json_dumps E default_config]>
                         (files (emit (EPrint [Lit ("Config file not found: " +:+ config a)]) w)))
                      (emit (EPrint [Lit ("Config file not found: " +:+ config a)]) w)) = w').
    { unfold w', emit, set_files. simpl. rewrite <- app_assoc. reflexivity. }
    rewrite Hw. unfold bind at 4. unfold ret at 2. reflexivity.
  - intros e Hopen.
    unfold main. unfold bind at 1. unfold path_exists at 1. rewrite Hmissing.
    simpl negb. cbv iota.
    unfold bind at 1. unfold bind at 1.
    unfold print at 1, create_default_config, write_text.
    unfold bind at 1. unfold w1 in *. rewrite Hopen. reflexivity.
Qed.

Lemma main_creates_default_config_witness :
  main (quiet_env "" None) (Args "config.json" None None None false) 0 bare =
    main (quiet_env "" None) (Args "config.json" None None None false) 0
      {| files := <[PyPath.Path "config.json" := "{}"]> (files bare);
         log := log bare ++ [ EPrint [Lit ("Config file not found: " +:+ "config.json")];
                              EPrint [Lit ("Created default config at " +:+ "config.json")] ] |}
  /\ main unwritable_env (Args "nodir/config.json" None None None false) 0 bare =
       (Raise (FileNotFoundError "nodir/config.json"),
        emit (EPrint [Lit ("Config file not found: " +:+ "nodir/config.json")]) bare).
Proof.
  split.
  - apply (main_creates_default_config (quiet_env "" None)
             (Args "config.json" None None None false) 0 bare); reflexivity.
  - apply (main_creates_default_config unwritable_env
             (Args "nodir/config.json" None None None false) 0 bare); reflexivity.
Defined.

(** The loop of the continuous mode, cut in two: the second part runs from
    the world the first part leaves, unless the first part ended with an
    exception. *)
Lemma while_true_split (body : M unit) (k n : nat) (w : world) :
  while_true (k + n) body w =
    match while_true k body w with
    | (Ok _, w') => while_true n body w'
    | (Raise e, w') => (Raise e, w')
    end.
Proof.
  revert w. induction k as [|k IH]; intros w; [reflexivity|].
  simpl. unfold bind. destruct (body w) as [[[]|e] w1]; [apply IH | reflexivity].
Qed.

(** X14. How [main] ends, with a configuration file that is read as
    [content] and holds the three settings [main] prints.  In the
    continuous mode the first cycle that raises ends the loop, no cycle is
    run after it, and [main] returns normally after the farewell when the
    exception is [KeyboardInterrupt], and ends with the exception
    otherwise.  In the one-shot mode every exception of the cycle,
    [KeyboardInterrupt] included, ends [main]. *)
Theorem main_ends_with_the_first_exception
    (E : env) (a : args) (k n : nat) (w wk w' : world) (e : exn)
    (content : string) (loaded cfg : configuration) (wm om te : scalar) :
  read_text E (config a) w = (Ok content, w) ->
  json_loads E content = Some loaded ->
  override_config a loaded = Ok cfg ->
  getitem2 cfg "whisper" "model" = Ok wm ->
  getitem2 cfg "ollama" "model" = Ok om ->
  getitem2 cfg "tts" "engine" = Ok te ->
  let w1 :=
    {| files := files w;
       log := log w ++ [ EPrint [Lit ("Using whisper model: " +:+ py_str wm)];
                         EPrint [Lit ("Using ollama model: " +:+ py_str om)];
                         EPrint [Lit ("Using TTS engine: " +:+ py_str te)] ] |} in
  (continuous a = true ->
   while_true k (run_assistant E cfg)
     (emit (EPrint [Lit "Running in continuous mode. Press Ctrl+C to exit."]) w1)
     = (Ok None, wk) ->
   run_assistant E cfg wk = (Raise e, w') ->
   main E a (k + S n) w =
     match e with
     | KeyboardInterrupt =>
         (Ok (Some tt), emit (EPrint [Lit (nl +:+ "Exiting voice assistant.")]) w')
     | _ => (Raise e, w')
     end) /\
  (continuous a = false ->
   run_assistant E cfg w1 = (Raise e, w') ->
   main E a n w = (Raise e, w')).
Proof.
  intros Hfile Hload Hover Hwm Hom Hte w1. split.
  - intros Hcont Hloop Hcycle.
    rewrite (main_reaches_cycle E a (k + S n) w content loaded cfg wm om te)
      by assumption.
    fold w1. rewrite Hcont, while_true_split, Hloop.
    simpl. unfold bind. rewrite Hcycle. destruct e; reflexivity.
  - intros Hcont Hcycle.
    rewrite (main_reaches_cycle E a n w content loaded cfg wm om te) by assumption.
    fold w1. rewrite Hcont, Hcycle. reflexivity.
Qed.

Lemma main_ends_with_the_first_exception_witness :
  fst (main interrupted_env (Args "config.json" None None None true) 3
            {| files := {[ "config.json" := "{}" ]}; log := [] |})
  = Ok (Some tt).
Proof.
  destruct (main_ends_with_the_first_exception interrupted_env
              (Args "config.json" None None None true) 0 2
              {| files := {[ "config.json" := "{}" ]}; log := [] |}
              {| files := {[ "config.json" := "{}" ]};
                 log := [ EPrint [Lit "Using whisper model: base.en"];
                          EPrint [Lit "Using ollama model: llama3"];
                          EPrint [Lit "Using TTS engine: piper"];
                          EPrint [Lit "Running in continuous mode. Press Ctrl+C to exit."] ] |}
              {| files := {[ "config.json" := "{}" ]};
                 log := [ EPrint [Lit "Using whisper model: base.en"];
                          EPrint [Lit "Using ollama model: llama3"];
                          EPrint [Lit "Using TTS engine: piper"];
                          EPrint [Lit "Running in continuous mode. Press Ctrl+C to exit."];
                          EPrint [Lit (nl +:+ "Listening... (press Ctrl+C to stop)")];
                          ERun (arecord_cmd "default" (SInt 16000) (SInt 5)
                                            "/tmp/recording_1700000000.wav") ] |}
              KeyboardInterrupt "{}" default_config default_config
              (SStr "base.en") (SStr "llama3") (SStr "piper"))
    as [Hloop _]; [vm_compute; reflexivity ..|].
  change (0 + 3)%nat with 3%nat in Hloop.
  rewrite Hloop; reflexivity.
Defined.

(** ** More on the generation *)

Lemma requests_emit_request (e : event) (w : world) :
  is_request e = true -> requests (emit e w) = requests w ++ [e].
Proof.
  intros He. unfold requests, emit. simpl.
  rewrite List.filter_app. simpl. rewrite He. reflexivity.
Qed.

(** X15. Once the server has answered the check with 200, exactly one
    generation request follows, whatever its outcome: a POST to
    [/api/generate] whose body has the four fields [model], [prompt] (the
    text as it was given), [system] (the configured prompt, or the default
    one) and [stream] (false). *)
Theorem generation_sends_one_request
    (E : env) (text : string) (config : settings) (model : scalar) (w : world)
    (r1 : response) :
  config !! "model" = Some model ->
  http_get E tags_url (emit (EGet tags_url) w) = Responded r1 ->
  status_code r1 = 200 ->
  exists request : gmap string json,
    requests (snd (process_with_ollama E text config w)) =
      requests w ++ [ EGet "http://localhost:11434/api/tags";
                      EPost "http://localhost:11434/api/generate" request ] /\
    dom request = {[ "model"; "prompt"; "system"; "stream" ]} /\
    request !! "model" = Some (JScalar model) /\
    request !! "prompt" = Some (JScalar (SStr text)) /\
    request !! "system" =
      Some (JScalar (default (SStr "You are a helpful assistant.")
                             (config !! "system_prompt"))) /\
    request !! "stream" = Some (JScalar (SBool false)).
Proof.
  intros Hm Hget H200.
  exists (payload model text (get config "system_prompt" (SStr "You are a helpful assistant."))).
  split; [|split; [|repeat split; reflexivity]].
  - run process_with_ollama. rewrite Hm.
    rewrite (check_running_ok E w r1) by assumption.
    unfold try_except, bind, requests_post, lift, response_json, json_get, print, ret.
    set (request := payload _ _ _).
    set (w2 := emit (EPost generate_url request) (emit (EGet tags_url) w)).
    assert (Hw2 : requests w2 = requests w ++ [EGet tags_url; EPost generate_url request]).
    { unfold w2. rewrite !requests_emit_request by reflexivity.
      rewrite <- app_assoc. reflexivity. }
    destruct (http_post E generate_url request w2) as [e|r2].
    + destruct (is_Exception e); simpl; [|exact Hw2].
      rewrite requests_emit by reflexivity. exact Hw2.
    + destruct (status_code r2 =? 200).
      * destruct (body r2) as [[v|l|m]|]; simpl;
          rewrite ?requests_emit by reflexivity; exact Hw2.
      * simpl. rewrite !requests_emit by reflexivity. exact Hw2.
  - unfold payload. rewrite !dom_insert_L, dom_empty_L. set_solver.
Qed.

Lemma generation_sends_one_request_witness :
  exists request : gmap string json,
    requests (snd (process_with_ollama (quiet_env "" None) "what time is it"
                     (default_config !!! "ollama") installed)) =
      requests installed ++ [ EGet "http://localhost:11434/api/tags";
                              EPost "http://localhost:11434/api/generate" request ] /\
    request !! "prompt" = Some (JScalar (SStr "what time is it")).
Proof.
  destruct (generation_sends_one_request (quiet_env "" None) "what time is it"
              (default_config !!! "ollama") (SStr "llama3") installed
              (Response 200 "{}" (Some (JObj ∅))))
    as (request & Hreq & _ & _ & Hprompt & _); [reflexivity ..|].
  exists request. split; [exact Hreq | exact Hprompt].
Defined.

(** X16. Once the server has answered the check with 200, a generation
    that fails is turned into the second apology, and nothing is raised:
    when the request raises an [Exception], when the status is not 200,
    when the body is not JSON, and when the JSON is not an object.  The
    files are as they were and one or two lines are printed after the two
    requests. *)
Theorem failed_generation_gives_apology
    (E : env) (text : string) (config : settings) (model : scalar) (w : world)
    (r1 : response) :
  config !! "model" = Some model ->
  http_get E tags_url (emit (EGet tags_url) w) = Responded r1 ->
  status_code r1 = 200 ->
  let request :=
    payload model text (get config "system_prompt" (SStr "You are a helpful assistant.")) in
  let w' := emit (EPost generate_url request) (emit (EGet tags_url) w) in
  (exists e, http_post E generate_url request w' = RequestFailed e /\ is_Exception e = true)
  \/ (exists r2, http_post E generate_url request w' = Responded r2 /\
                 (status_code r2 <> 200
                  \/ body r2 = None
                  \/ (exists v, body r2 = Some (JScalar v))
                  \/ (exists l, body r2 = Some (JArr l)))) ->
  exists lines,
    (List.length lines = 1 \/ List.length lines = 2)%nat /\
    process_with_ollama E text config w =
      (Ok (JScalar (SStr "Sorry, I encountered an error while processing your request.")),
       {| files := files w; log := log w' ++ map EPrint lines |}).
Proof.
  intros Hm Hget H200 request w' Hfail.
  run process_with_ollama. rewrite Hm.
  rewrite (check_running_ok E w r1) by assumption.
  unfold try_except, bind, requests_post, lift, response_json, json_get, print, ret.
  fold request. fold w'.
  destruct Hfail as [(e & -> & He) | (r2 & -> & Hr2)].
  - rewrite He. eexists [_]. split; [left; reflexivity|]. reflexivity.
  - destruct (status_code r2 =? 200) eqn:Hs.
    + destruct Hr2 as [Hne | [Hb | [[v Hb] | [l Hb]]]].
      * apply Z.eqb_eq in Hs. contradiction.
      * rewrite Hb. simpl. eexists [_]. split; [left; reflexivity|]. reflexivity.
      * rewrite Hb. simpl. eexists [_]. split; [left; reflexivity|]. reflexivity.
      * rewrite Hb. simpl. eexists [_]. split; [left; reflexivity|]. reflexivity.
    + eexists [_; _]. split; [right; reflexivity|].
      unfold emit. simpl. rewrite <- !app_assoc. reflexivity.
Qed.

Lemma failed_generation_gives_apology_witness :
  fst (process_with_ollama
         (http_env (Responded (Response 200 "{}" (Some (JObj ∅))))
                   (Responded (Response 500 "model not loaded" None)))
         "what time is it" (default_config !!! "ollama") installed)
  = Ok (JScalar (SStr "Sorry, I encountered an error while processing your request.")).
Proof.
  destruct (failed_generation_gives_apology
              (http_env (Responded (Response 200 "{}" (Some (JObj ∅))))
                        (Responded (Response 500 "model not loaded" None)))
              "what time is it" (default_config !!! "ollama") (SStr "llama3") installed
              (Response 200 "{}" (Some (JObj ∅))))
    as (lines & _ & Hrun); [reflexivity | reflexivity | reflexivity | |].
  - right. eexists. split; [reflexivity|]. left. discriminate.
  - rewrite Hrun. reflexivity.
Defined.

(** ** More on the recording *)

(** A call of [subprocess.run] that returns: the process was started with
    strings and exited with status 0. *)
Lemma subprocess_run_ok (E : env) (capture : bool) (cmd : list json) (w w' : world)
    (c : completed) :
  subprocess_run E capture cmd w = (Ok c, w') ->
  exists argv out err,
    as_args cmd = Some argv /\
    spawn E argv (emit (ERun cmd) w) = Exited 0 out err (files w') /\
    log w' = log w ++ [ERun cmd].
Proof.
  unfold subprocess_run.
  destruct (as_args cmd) as [argv|]; [|discriminate].
  destruct (spawn E argv (emit (ERun cmd) w)) as [e|rc out err fs] eqn:Hs; [discriminate|].
  destruct (rc =? 0) eqn:Hrc; [|discriminate].
  intros [= _ <-]. apply Z.eqb_eq in Hrc. subst rc.
  exists argv, out, err. auto.
Qed.

Lemma as_args_cons (s : string) (cmd : list json) (argv : list string) :
  as_args (JScalar (SStr s) :: cmd) = Some argv ->
  exists rest, argv = s :: rest /\ as_args cmd = Some rest.
Proof.
  unfold as_args. simpl.
  destruct (mapM as_str cmd) as [rest|]; simpl; [|discriminate].
  intros [= <-]. eauto.
Qed.

(** X17. A path returned by [record_audio] means that a recorder ran to the
    end: [arecord], or [rec] after a failure of [arecord], was started with
    that path among its arguments and exited with status 0, and the files
    are those it left.  The path is [recording_<time>.wav] in the
    temporary directory, whatever the settings. *)
Theorem record_audio_returns_after_a_recorder_succeeded
    (E : env) (config : settings) (w w' : world) (path : string) :
  record_audio E config w = (Ok path, w') ->
  path = PyPath.join (gettempdir E) ("recording_" +:+ pretty (time E w) +:+ ".wav") /\
  exists tool rest out err w0,
    (tool = "arecord" \/ tool = "rec") /\
    path ∈ rest /\
    spawn E (tool :: rest) w0 = Exited 0 out err (files w').
Proof.
  unfold record_audio, bind, now, try_except, ret.
  set (output_file := PyPath.join _ _).
  destruct (subprocess_run E false (arecord_cmd _ _ _ output_file) w)
    as [[c1|e1] w1] eqn:H1.
  - intros [= <- <-]. split; [reflexivity|].
    destruct (subprocess_run_ok _ _ _ _ _ _ H1) as (argv & out & err & Hargs & Hspawn & _).
    destruct (as_args_cons _ _ _ Hargs) as (rest & -> & Hrest).
    exists "arecord", rest, out, err. eexists.
    split; [auto|]. split; [|exact Hspawn].
    unfold as_args in Hrest. simpl in Hrest.
    destruct (get config "device" (SStr "default")); simpl in Hrest; try discriminate.
    injection Hrest as <-. set_solver.
  - destruct (tool_failure e1); [|discriminate].
    destruct (subprocess_run E false (rec_cmd _ _ output_file) w1)
      as [[c2|e2] w2] eqn:H2.
    + intros [= <- <-]. split; [reflexivity|].
      destruct (subprocess_run_ok _ _ _ _ _ _ H2) as (argv & out & err & Hargs & Hspawn & _).
      destruct (as_args_cons _ _ _ Hargs) as (rest & -> & Hrest).
      exists "rec", rest, out, err. eexists.
      split; [auto|]. split; [|exact Hspawn].
      unfold as_args in Hrest. simpl in Hrest. injection Hrest as <-. set_solver.
    + destruct (tool_failure e2); [|discriminate].
      unfold print, raise. discriminate.
Qed.

Lemma record_audio_returns_after_a_recorder_succeeded_witness :
  "/tmp/recording_1700000000.wav" =
    PyPath.join "/tmp" ("recording_" +:+ pretty 1700000000 +:+ ".wav") /\
  exists tool rest out err w0,
    (tool = "arecord" \/ tool = "rec") /\
    "/tmp/recording_1700000000.wav" ∈ rest /\
    spawn (quiet_env "" None) (tool :: rest) w0 = Exited 0 out err (files installed).
Proof.
  apply (record_audio_returns_after_a_recorder_succeeded (quiet_env "" None)
           (default_config !!! "audio") installed
           {| files := files installed;
              log := [ ERun (arecord_cmd "default" (SInt 16000) (SInt 5)
                                         "/tmp/recording_1700000000.wav") ] |}).
  vm_compute. reflexivity.
Defined.

(** ** Where the transcript file is found *)

Lemma replace_go_skips (old new s : string) (k : nat) :
  (String.length s <= k)%nat -> PyStr.replace_go old new k s = "".
Proof.
  revert k. induction s as [|a s IH]; intros k Hk; [reflexivity|].
  simpl in *. destruct k as [|k]; [lia|]. apply IH. lia.
Qed.

(** When the first occurrence of [old] is the end of [s], replacing [old]
    replaces that end. *)
Lemma replace_go_at_end (old new s : string) (n : nat) :
  old <> "" ->
  str_find old s = Some n ->
  (n + String.length old = String.length s)%nat ->
  PyStr.replace_go old new O s = String.substring 0 n s +:+ new.
Proof.
  intros Hold. revert n. induction s as [|a s IH]; intros n Hfind Hlen.
  - simpl in Hfind. destruct old; [congruence | discriminate].
  - cbn [str_find] in Hfind. cbn [PyStr.replace_go].
    destruct (String.prefix old (String a s)) eqn:Hp.
    + injection Hfind as <-. simpl in Hlen.
      rewrite replace_go_skips by lia.
      rewrite app_nil_s. reflexivity.
    + destruct (str_find old s) as [m|] eqn:Hm; [|discriminate].
      injection Hfind as <-. simpl in Hlen.
      rewrite (IH m eq_refl) by lia. reflexivity.
Qed.

(** X18. When the extension of the audio file occurs in its path only once,
    at the end, [transcribe_audio] looks for the transcript at that path
    with the extension replaced by [.txt]. *)
Theorem output_file_replaces_a_single_extension (audio_file : string) (n : nat) :
  PyPath.suffix audio_file <> "" ->
  str_find (PyPath.suffix audio_file) audio_file = Some n ->
  (n + String.length (PyPath.suffix audio_file) = String.length audio_file)%nat ->
  output_file audio_file = PyPath.Path (String.substring 0 n audio_file +:+ ".txt").
Proof.
  intros Hsuf Hfind Hlen. unfold output_file, PyStr.replace.
  destruct (PyPath.suffix audio_file) as [|a suf] eqn:Hs; [congruence|].
  rewrite (replace_go_at_end (String a suf) ".txt" audio_file n) by (congruence || assumption).
  reflexivity.
Qed.

Lemma output_file_replaces_a_single_extension_witness :
  output_file "/tmp/recording_1700000000.wav" =
    PyPath.Path (String.substring 0 25 "/tmp/recording_1700000000.wav" +:+ ".txt").
Proof.
  apply (output_file_replaces_a_single_extension "/tmp/recording_1700000000.wav" 25).
  - discriminate.
  - reflexivity.
  - reflexivity.
Defined.

(** ** The requests of one cycle *)

Lemma sends_preserves {A} (S : list event -> Prop) (m : M A) :
  S [] -> preserves requests m -> sends S m.
Proof.
  intros HS Hm w. exists []. rewrite app_nil_r. split; [apply Hm | exact HS].
Qed.

Lemma sends_bind_l {A B} (S : list event -> Prop) (m : M A) (k : A -> M B) :
  S [] -> preserves requests m -> (forall a, sends S (k a)) -> sends S (bind m k).
Proof.
  intros HS Hm Hk w. unfold bind. specialize (Hm w).
  destruct (m w) as [[a|e] w1]; simpl in *.
  - destruct (Hk a w1) as (sent & Hsent & Hs). exists sent. rewrite Hsent, Hm. auto.
  - exists []. rewrite app_nil_r. auto.
Qed.

Lemma sends_bind_r {A B} (S : list event -> Prop) (m : M A) (k : A -> M B) :
  sends S m -> (forall a, preserves requests (k a)) -> sends S (bind m k).
Proof.
  intros Hm Hk w. unfold bind. destruct (Hm w) as (sent & Hsent & Hs).
  destruct (m w) as [[a|e] w1]; simpl in *; exists sent; [rewrite Hk|]; auto.
Qed.

Lemma preserves_requests_text_to_speech (E : env) (text : json) (config : settings) :
  preserves requests (text_to_speech E text config).
Proof.
  unfold text_to_speech.
  destruct (eq_str _ "piper"); [apply preserves_requests_tts_piper|].
  destruct (eq_str _ "espeak"); [apply preserves_requests_tts_espeak|].
  apply preserves_bind; [apply offline_print|]. intros _. apply offline_print.
Qed.

(** After a check answered with 200: the check and the generation request. *)
Lemma generation_requests (E : env) (text : string) (config : settings) (model : scalar)
    (w : world) (r1 : response) :
  config !! "model" = Some model ->
  http_get E tags_url (emit (EGet tags_url) w) = Responded r1 ->
  status_code r1 = 200 ->
  requests (snd (process_with_ollama E text config w)) =
    requests w ++
    [ EGet tags_url;
      EPost generate_url
        (payload model text (get config "system_prompt" (SStr "You are a helpful assistant."))) ].
Proof.
  intros Hm Hget H200.
  run process_with_ollama. rewrite Hm.
  rewrite (check_running_ok E w r1) by assumption.
  unfold try_except, bind, requests_post, lift, response_json, json_get, print, ret.
  set (request := payload _ _ _).
  set (w2 := emit (EPost generate_url request) (emit (EGet tags_url) w)).
  assert (Hw2 : requests w2 = requests w ++ [EGet tags_url; EPost generate_url request]).
  { unfold w2. rewrite !requests_emit_request by reflexivity.
    rewrite <- app_assoc. reflexivity. }
  destruct (http_post E generate_url request w2) as [e|r2].
  - destruct (is_Exception e); simpl; [|exact Hw2].
    rewrite requests_emit by reflexivity. exact Hw2.
  - destruct (status_code r2 =? 200).
    + destruct (body r2) as [[v|l|m]|]; simpl;
        rewrite ?requests_emit by reflexivity; exact Hw2.
    + simpl. rewrite !requests_emit by reflexivity. exact Hw2.
Qed.

Lemma sends_process_with_ollama (E : env) (text : string) (config : settings) :
  sends cycle_requests (process_with_ollama E text config).
Proof.
  intros w.
  destruct (config !! "model") as [model|] eqn:Hm.
  - destruct (http_get E tags_url (emit (EGet tags_url) w)) as [e|r1] eqn:Hget.
    + exists [EGet tags_url]. split; [|right; left; reflexivity].
      run process_with_ollama. rewrite Hm.
      unfold check_running, try_except, bind, requests_get. rewrite Hget.
      destruct e; simpl; rewrite ?requests_emit by reflexivity;
        apply requests_emit_request; reflexivity.
    + destruct (decide (status_code r1 = 200)) as [H200|Hne].
      * eexists. split; [apply (generation_requests E text config model w r1); assumption|].
        right. right. eauto.
      * exists [EGet tags_url]. split; [|right; left; reflexivity].
        run process_with_ollama. rewrite Hm.
        unfold check_running, try_except, bind, requests_get. rewrite Hget.
        apply Z.eqb_neq in Hne. rewrite Hne. simpl.
        rewrite requests_emit by reflexivity.
        apply requests_emit_request. reflexivity.
  - exists []. split; [|left; reflexivity].
    run process_with_ollama. rewrite Hm. simpl. rewrite app_nil_r. reflexivity.
Qed.

(** X19. One cycle sends at most two requests, whatever the configuration,
    the tools and the server do: nothing, or the check of the server, or
    the check followed by one generation request. *)
Theorem cycle_sends_at_most_two_requests (E : env) (config : configuration) (w : world) :
  exists sent,
    requests (snd (run_assistant E config w)) = requests w ++ sent /\
    (sent = [] \/ sent = [EGet "http://localhost:11434/api/tags"]
     \/ exists request,
          sent = [ EGet "http://localhost:11434/api/tags";
                   EPost "http://localhost:11434/api/generate" request ]).
Proof.
  assert (Hnone : cycle_requests []) by (left; reflexivity).
  assert (H : sends cycle_requests (run_assistant E config)).
  { unfold run_assistant, run_assistant_with.
    apply sends_bind_l; [exact Hnone | apply offline_print|]. intros _.
    apply sends_bind_l; [exact Hnone | apply preserves_lift|]. intros audio.
    apply sends_bind_l; [exact Hnone | apply offline_record_audio|]. intros audio_file.
    apply sends_bind_l; [exact Hnone | apply offline_print|]. intros _.
    apply sends_bind_l; [exact Hnone | apply preserves_lift|]. intros whisper.
    apply sends_bind_l; [exact Hnone | apply offline_transcribe_audio|]. intros transcript.
    apply sends_bind_l; [exact Hnone | apply offline_print|]. intros _.
    destruct (negb _); [apply sends_preserves; [exact Hnone | apply offline_print]|].
    apply sends_bind_l; [exact Hnone | apply offline_print|]. intros _.
    apply sends_bind_l; [exact Hnone | apply preserves_lift|]. intros ollama.
    apply sends_bind_r; [apply sends_process_with_ollama|]. intros response.
    apply preserves_bind; [apply offline_print|]. intros _.
    apply preserves_bind; [apply offline_print|]. intros _.
    apply preserves_bind; [apply preserves_lift|]. intros tts.
    apply preserves_requests_text_to_speech. }
  exact (H w).
Qed.

(** ** Synthesis with espeak *)

Lemma processes_emit_run (cmd : list json) (w : world) :
  processes (emit (ERun cmd) w) = processes w ++ [ERun cmd].
Proof.
  unfold processes, emit. simpl. rewrite List.filter_app. reflexivity.
Qed.

Lemma processes_emit_print (line : list piece) (w : world) :
  processes (emit (EPrint line) w) = processes w.
Proof.
  unfold processes, emit. simpl. rewrite List.filter_app. apply app_nil_r.
Qed.

Lemma processes_subprocess_run (E : env) (capture : bool) (cmd : list json) (w : world) :
  processes (snd (subprocess_run E capture cmd w)) = processes w ++ [ERun cmd].
Proof.
  unfold processes. rewrite subprocess_run_log, List.filter_app. reflexivity.
Qed.

(** X20. [_tts_espeak] makes one call of [subprocess.run], with the text as
    the last argument, the configured voice (or [en]) and the configured
    speed (or 150).  When the arguments are strings, a missing espeak and
    an exit status other than 0 leave a message and the call returns
    normally; only another failure to start the process is raised. *)
Theorem espeak_runs_one_process (E : env) (text : json) (config : settings) (w : world) :
  let cmd : list json :=
    [ JScalar "espeak"; JScalar "-v"; JScalar (get config "voice" (SStr "en"));
      JScalar "-s"; JScalar (py_str (get config "speed" (SInt 150))); text ] in
  processes (snd (_tts_espeak E text config w)) = processes w ++ [ERun cmd] /\
  (forall argv,
     as_args cmd = Some argv ->
     (forall e, spawn E argv (emit (ERun cmd) w) = SpawnFailed e -> tool_failure e = true) ->
     fst (_tts_espeak E text config w) = Ok tt).
Proof.
  intros cmd. unfold _tts_espeak, try_except, bind, ret. fold cmd.
  pose proof (processes_subprocess_run E false cmd w) as Hp.
  split.
  - destruct (subprocess_run E false cmd w) as [[c|e] w1]; simpl in *; [exact Hp|].
    destruct e; simpl; unfold print, bind; simpl;
      rewrite ?processes_emit_print; exact Hp.
  - intros argv Hargs Hspawn. unfold subprocess_run. rewrite Hargs.
    destruct (spawn E argv (emit (ERun cmd) w)) as [e|rc out err fs] eqn:Hs.
    + specialize (Hspawn e eq_refl). destruct e; try discriminate; reflexivity.
    + destruct (rc =? 0); reflexivity.
Qed.

(** ** The prompt of the cycle *)

(** X21. In a cycle whose transcript is not blank, with the model
    configured and the check of the server answered with 200, the requests
    of the cycle are the check and one generation request whose prompt is
    the transcript as [transcribe_audio] returned it, whatever the
    generation and the synthesis do afterwards. *)
Theorem cycle_sends_the_transcript
    (E : env) (config : configuration) (audio whisper ollama : settings)
    (model : scalar) (audio_file transcript : string) (w w1 w2 : world) (r1 : response) :
  config !! "audio" = Some audio ->
  config !! "whisper" = Some whisper ->
  config !! "ollama" = Some ollama ->
  ollama !! "model" = Some model ->
  record_audio E audio
    (emit (EPrint [Lit (nl +:+ "Listening... (press Ctrl+C to stop)")]) w)
    = (Ok audio_file, w1) ->
  transcribe_audio E audio_file whisper (emit (EPrint [Lit "Transcribing..."]) w1)
    = (Ok transcript, w2) ->
  PyStr.all_space transcript = false ->
  let w3 := emit (EPrint [Lit "Processing with Ollama..."])
              (emit (EPrint [Lit ("You said: " +:+ transcript)]) w2) in
  http_get E tags_url (emit (EGet tags_url) w3) = Responded r1 ->
  status_code r1 = 200 ->
  requests (snd (run_assistant E config w)) =
    requests w ++
    [ EGet tags_url;
      EPost generate_url
        (payload model transcript
           (get ollama "system_prompt" (SStr "You are a helpful assistant."))) ].
Proof.
  intros Ha Hw Ho Hm Hrec Htr Htext w3 Hget H200.
  assert (Hbefore : requests w3 = requests w).
  { unfold w3. rewrite !requests_emit by reflexivity.
    pose proof (offline_transcribe_audio E audio_file whisper
                  (emit (EPrint [Lit "Transcribing..."]) w1)) as H2.
    rewrite Htr in H2. simpl in H2. rewrite H2, requests_emit by reflexivity.
    pose proof (offline_record_audio E audio
                  (emit (EPrint [Lit (nl +:+ "Listening... (press Ctrl+C to stop)")]) w))
      as H1.
    rewrite Hrec in H1. simpl in H1. rewrite H1. apply requests_emit. reflexivity. }
  pose proof (generation_requests E transcript ollama model w3 r1 Hm Hget H200) as Hgen.
  unfold run_assistant; run run_assistant_with.
  rewrite Ha, Hrec, Hw, Htr, truthy_strip, Htext. simpl. rewrite Ho.
  fold w3.
  destruct (process_with_ollama E transcript ollama w3) as [[response|e] w4];
    simpl in Hgen; [|simpl; rewrite Hgen, Hbefore; reflexivity].
  destruct (config !! "tts") as [tts|]; simpl.
  - rewrite (preserves_requests_text_to_speech E response tts).
    rewrite !requests_emit by reflexivity. rewrite Hgen, Hbefore. reflexivity.
  - rewrite !requests_emit by reflexivity. rewrite Hgen, Hbefore. reflexivity.
Qed.

Lemma cycle_sends_the_transcript_witness :
  requests (snd (run_assistant (quiet_env "  what time is it " None) default_config installed))
  = requests installed ++
    [ EGet tags_url;
      EPost generate_url
        (payload (SStr "llama3") "what time is it"
           (get (default_config !!! "ollama") "system_prompt"
                (SStr "You are a helpful assistant."))) ].
Proof.
  apply (cycle_sends_the_transcript (quiet_env "  what time is it " None) default_config
           (default_config !!! "audio") (default_config !!! "whisper")
           (default_config !!! "ollama") (SStr "llama3")
           "/tmp/recording_1700000000.wav" "what time is it" installed recorded transcribed
           (Response 200 "{}" (Some (JObj ∅))));
    vm_compute; reflexivity.
Defined.
